(** * BidWin AI Enterprise Platform: the response-lifecycle controllers

    A shallow embedding of [src/app/page.tsx]: the three view components
    ([GeneratorView], [AuditorView], [VaultView]), their event handlers and
    the classification helpers used while rendering.

    - JavaScript strings are sequences of UTF-16 code units.
    - JavaScript numbers are the extended rationals plus [NaN]; every finite
      double is a rational and the comparisons of the source are exact.
    - Values coming back from the agent are untyped at run time (the source
      casts them with [as unknown as ...]), so they are modelled as a JSON
      like [value].
    - An [async] handler is a [task]: either it returns before its first
      [await], or it is suspended on a request together with the code that
      runs when the request settles. *)

From Stdlib Require Import List String Ascii Bool NArith QArith.
Import ListNotations.

Set Warnings "-register-all".

(** ** Strings *)

Module JsString.

Definition t : Type := list N.

(** A source literal (ASCII only in this program) as code units. *)
Definition lit (s : string) : t := map N_of_ascii (list_ascii_of_string s).

Fixpoint eqb (a b : t) : bool :=
  match a, b with
  | [], [] => true
  | x :: a', y :: b' => N.eqb x y && eqb a' b'
  | _, _ => false
  end.

(** ECMAScript [WhiteSpace] and [LineTerminator] code points, the ones
    [String.prototype.trim] strips. All lie in the basic plane. *)
Definition isWhiteSpace (c : N) : bool :=
  (N.eqb c 9 || N.eqb c 10 || N.eqb c 11 || N.eqb c 12 || N.eqb c 13
   || N.eqb c 32 || N.eqb c 160 || N.eqb c 5760
   || (N.leb 8192 c && N.leb c 8202)
   || N.eqb c 8232 || N.eqb c 8233 || N.eqb c 8239 || N.eqb c 8287
   || N.eqb c 12288 || N.eqb c 65279)%bool.

Fixpoint trimStart (s : t) : t :=
  match s with
  | [] => []
  | c :: s' => if isWhiteSpace c then trimStart s' else s
  end.

Definition trimEnd (s : t) : t := rev (trimStart (rev s)).

Definition trim (s : t) : t := trimEnd (trimStart s).

(** [ToBoolean] on a string: only the empty string is falsy. *)
Definition truthy (s : t) : bool :=
  match s with [] => false | _ :: _ => true end.

End JsString.

Abbreviation jsstring := JsString.t.
Abbreviation lit := JsString.lit.

(** ** Numbers *)

Inductive number : Type :=
| NaN
| PosInf
| NegInf
| Finite (q : Q).

Arguments Finite q%_Q.

Module Number.

(** [a > b] *)
Definition gt (a b : number) : bool :=
  match a, b with
  | NaN, _ | _, NaN => false
  | PosInf, PosInf => false
  | PosInf, _ => true
  | NegInf, _ => false
  | Finite _, PosInf => false
  | Finite _, NegInf => true
  | Finite x, Finite y => negb (Qle_bool x y)
  end.

(** [a >= b] *)
Definition ge (a b : number) : bool :=
  match a, b with
  | NaN, _ | _, NaN => false
  | PosInf, _ => true
  | NegInf, NegInf => true
  | NegInf, _ => false
  | Finite _, PosInf => false
  | Finite _, NegInf => true
  | Finite x, Finite y => Qle_bool y x
  end.

(** [a < b] and [a <= b], the mirrored comparisons. *)
Definition lt (a b : number) : bool := gt b a.
Definition le (a b : number) : bool := ge b a.

(** [ToBoolean] on a number: [0], [-0] and [NaN] are falsy. *)
Definition truthy (a : number) : bool :=
  match a with
  | NaN => false
  | Finite q => negb (Qeq_bool q 0)
  | _ => true
  end.

End Number.

(** ** Run-time values *)

Inductive value : Type :=
| VUndefined
| VNull
| VBool (b : bool)
| VNumber (n : number)
| VString (s : jsstring)
| VArray (items : list value)
| VObject (fields : list (jsstring * value)).

Module Value.

(** [ToBoolean], as applied by [&&], [||], [!] and [if]. *)
Definition truthy (v : value) : bool :=
  match v with
  | VUndefined | VNull => false
  | VBool b => b
  | VNumber n => Number.truthy n
  | VString s => JsString.truthy s
  | VArray _ | VObject _ => true
  end.

Fixpoint lookup (k : jsstring) (fields : list (jsstring * value)) : option value :=
  match fields with
  | [] => None
  | (k', v) :: rest => if JsString.eqb k k' then Some v else lookup k rest
  end.

(** [v.k] for a named data property [k] that no prototype defines (the
    source only reads [.result]). A missing property reads as
    [undefined]. Reading from [undefined] or [null] would throw; the only
    read of the source is guarded by the truthiness of its receiver, see
    [truthy_receiver]. *)
Definition get (v : value) (k : jsstring) : value :=
  match v with
  | VObject fields =>
      match lookup k fields with
      | Some x => x
      | None => VUndefined
      end
  | _ => VUndefined
  end.

End Value.

(** ** Classification helpers of [AuditorView] *)

Module Taxonomy.

Definition getScoreColor (score : number) : jsstring :=
  if Number.gt score (Finite 80) then lit "bg-green-500"
  else if Number.ge score (Finite 50) then lit "bg-yellow-500"
  else lit "bg-red-500".

Definition getScoreTextColor (score : number) : jsstring :=
  if Number.gt score (Finite 80) then lit "text-green-900"
  else if Number.ge score (Finite 50) then lit "text-yellow-900"
  else lit "text-red-900".

Definition getRiskBadgeColor (riskLevel : jsstring) : jsstring :=
  if JsString.eqb riskLevel (lit "safe")
  then lit "bg-green-100 text-green-800 border-green-200"
  else if JsString.eqb riskLevel (lit "warning")
  then lit "bg-yellow-100 text-yellow-800 border-yellow-200"
  else if JsString.eqb riskLevel (lit "danger")
  then lit "bg-red-100 text-red-800 border-red-200"
  else lit "bg-slate-100 text-slate-800 border-slate-200".

(** The icon components of [lucide-react] used by [getStatusIcon]. *)
Inductive icon : Type := CheckCircle | AlertTriangle | XCircle.

Record element : Type := { component : icon; className : jsstring }.

(** [None] is the [null] of the source: nothing is rendered. *)
Definition getStatusIcon (status : jsstring) : option element :=
  if JsString.eqb status (lit "VERIFIED")
  then Some {| component := CheckCircle; className := lit "h-5 w-5 text-green-600" |}
  else if JsString.eqb status (lit "UNKNOWN")
  then Some {| component := AlertTriangle; className := lit "h-5 w-5 text-yellow-600" |}
  else if JsString.eqb status (lit "CONTRADICTION")
  then Some {| component := XCircle; className := lit "h-5 w-5 text-red-600" |}
  else None.

(** The conditional inside the [className] template of each analysis
    row: [item.risk_level === 'safe' ? ... : item.risk_level === 'warning'
    ? ... : ...]. *)
Definition containerColor (risk_level : jsstring) : jsstring :=
  if JsString.eqb risk_level (lit "safe") then lit "bg-green-50 border-green-200"
  else if JsString.eqb risk_level (lit "warning") then lit "bg-yellow-50 border-yellow-200"
  else lit "bg-red-50 border-red-200".

(** The full [className] of the row container. *)
Definition containerClassName (risk_level : jsstring) : jsstring :=
  lit "p-4 rounded-lg border " ++ containerColor risk_level.

End Taxonomy.

(** ** Asynchronous handlers *)

Section Task.

Variables (State Req Ans Eff : Type).

(** What an [async] handler has done when control returns to the event
    loop: it has returned ([Finished]), or it is suspended at its [await]
    on [req] in state [st], and [k] is the rest of its body, which runs on
    the answer and on the component state of that later moment. *)
Inductive task : Type :=
| Finished (st : State) (effects : list Eff)
| Await (st : State) (req : Req) (k : Ans -> State -> State * list Eff).

(** The requests a task sends. *)
Definition requests (t : task) : list Req :=
  match t with
  | Finished _ _ => []
  | Await _ req _ => [req]
  end.

(** The component state when control returns to the event loop. *)
Definition suspended (t : task) : State :=
  match t with
  | Finished st _ => st
  | Await st _ _ => st
  end.

(** Runs a task to completion against a collaborator that answers each
    request, with no other event in between. *)
Definition run (collaborator : Req -> Ans) (t : task) : State * list Eff :=
  match t with
  | Finished st effects => (st, effects)
  | Await st req k => k (collaborator req) st
  end.

End Task.

Arguments Finished {State Req Ans Eff} st effects.
Arguments Await {State Req Ans Eff} st req k.
Arguments requests {State Req Ans Eff} t.
Arguments suspended {State Req Ans Eff} t.
Arguments run {State Req Ans Eff} collaborator t.

(** ** The agent transport, [callAIAgent] of [@/lib/aiAgent] *)

Module Agent.

(** The agent identifiers at the top of [page.tsx]. *)
Definition BID_GENERATOR_AGENT_ID : jsstring := lit "6985a6533b50e9c8d7d7e939".
Definition COMPLIANCE_AUDITOR_AGENT_ID : jsstring := lit "6985a66c3b50e9c8d7d7e93e".
Definition KNOWLEDGE_VAULT_RAG_ID : jsstring := lit "6985a64460cd1fd2d988d920".

(** Modelled from the spec: the declaration of the value [callAIAgent]
    resolves to lives in [@/lib/aiAgent], outside the sources; section 4.1
    gives it as [{ success: bool, response?: unknown, error?: string }].
    An absent [response] is [VUndefined], an absent [error] is [None]. *)
Record result : Type := {
  success : bool;
  response : value;
  error : option jsstring
}.

(** What a [catch] clause can receive: an [Error] instance with its
    message, or any other thrown value. *)
Inductive exn : Type :=
| Error (message : jsstring)
| NotError (v : value).

(** How the awaited promise settles. *)
Inductive settled : Type :=
| Resolved (r : result)
| Rejected (e : exn).

(** The arguments of one [callAIAgent(message, agent_id)]. *)
Record call : Type := { message : jsstring; agent_id : jsstring }.

(** [result.error || fallback] *)
Definition errorOr (r : result) (fallback : jsstring) : jsstring :=
  match error r with
  | Some e => if JsString.truthy e then e else fallback
  | None => fallback
  end.

(** [result.success && result.response] as a condition. *)
Definition ok (r : result) : bool := success r && Value.truthy (response r).

End Agent.

(** What [console.error] is given after its label. *)
Inductive logged : Type :=
| LoggedValue (v : value)
| LoggedExn (e : Agent.exn).

Inductive effect (State : Type) : Type :=
| ConsoleError (label : jsstring) (arg : logged)
| SetTimeout (callback : State -> State) (delay : N).

Arguments ConsoleError {State} label arg.
Arguments SetTimeout {State} callback delay.

Definition optional (e : option jsstring) : value :=
  match e with
  | Some s => VString s
  | None => VUndefined
  end.

(** ** [GeneratorView] *)

Module GeneratorView.

Record state : Type := {
  question : jsstring;
  loading : bool;
  response : value;
  copied : bool
}.

Definition initial : state :=
  {| question := []; loading := false; response := VNull; copied := false |}.

Definition setQuestion (q : jsstring) (st : state) : state :=
  {| question := q; loading := loading st; response := response st; copied := copied st |}.
Definition setLoading (b : bool) (st : state) : state :=
  {| question := question st; loading := b; response := response st; copied := copied st |}.
Definition setResponse (v : value) (st : state) : state :=
  {| question := question st; loading := loading st; response := v; copied := copied st |}.

(** The object literal of both failure branches. *)
Definition missingInfo (warning : jsstring) : value :=
  VObject [ (lit "answer", VString []);
            (lit "status", VString (lit "missing_info"));
            (lit "citations", VArray []);
            (lit "warning", VString warning) ].

(** The body of [handleGenerate] after the [await]: the rest of the
    [try], the [catch] and the [finally]. *)
Definition settle (o : Agent.settled) (st : state) : state * list (effect state) :=
  let st1 :=
    match o with
    | Agent.Resolved result =>
        if Agent.ok result
        then setResponse (Value.get (Agent.response result) (lit "result")) st
        else setResponse (missingInfo (Agent.errorOr result (lit "Failed to generate answer"))) st
    | Agent.Rejected (Agent.Error message) => setResponse (missingInfo message) st
    | Agent.Rejected (Agent.NotError _) => setResponse (missingInfo (lit "Network error")) st
    end in
  (setLoading false st1, []).

Definition handleGenerate (st : state)
  : task state Agent.call Agent.settled (effect state) :=
  if negb (JsString.truthy (JsString.trim (question st))) then Finished st []
  else
    Await (setResponse VNull (setLoading true st))
          {| Agent.message := question st; Agent.agent_id := Agent.BID_GENERATOR_AGENT_ID |}
          settle.

(** [disabled={loading || !question.trim()}] on the submit button. *)
Definition generateDisabled (st : state) : bool :=
  loading st || negb (JsString.truthy (JsString.trim (question st))).

(** A click on the submit button: a disabled button dispatches no
    [onClick]. *)
Definition clickGenerate (st : state)
  : task state Agent.call Agent.settled (effect state) :=
  if generateDisabled st then Finished st [] else handleGenerate st.

(** The [Clear] button: [onClick={() => setResponse(null)}]. *)
Definition clickClear (st : state) : state := setResponse VNull st.

End GeneratorView.

(** ** [GeneratorView] driven through its controls *)

Module GeneratorUI.

(** What the user and the transport can do to a mounted [GeneratorView]. *)
Inductive event : Type :=
| TypeQuestion (q : jsstring)
| ClickGenerate
| ClickClear
| Settle (o : Agent.settled).

(** The component state and the continuations of the requests that have
    not settled yet, oldest first. *)
Record session : Type := {
  view : GeneratorView.state;
  pending : list (Agent.settled -> GeneratorView.state
                  -> GeneratorView.state * list (effect GeneratorView.state))
}.

Definition start : session :=
  {| view := GeneratorView.initial; pending := [] |}.

(** The [Textarea] is [disabled={loading}]; the [Clear] button is rendered
    only inside [{response && ...}]; a settlement resumes the oldest
    suspended handler. *)
Definition step (s : session) (e : event) : session :=
  match e with
  | TypeQuestion q =>
      if GeneratorView.loading (view s) then s
      else {| view := GeneratorView.setQuestion q (view s); pending := pending s |}
  | ClickGenerate =>
      match GeneratorView.clickGenerate (view s) with
      | Finished st _ => {| view := st; pending := pending s |}
      | Await st _ k => {| view := st; pending := pending s ++ [k] |}
      end
  | ClickClear =>
      if Value.truthy (GeneratorView.response (view s))
      then {| view := GeneratorView.clickClear (view s); pending := pending s |}
      else s
  | Settle o =>
      match pending s with
      | [] => s
      | k :: rest => {| view := fst (k o (view s)); pending := rest |}
      end
  end.

Definition play (events : list event) : session := fold_left step events start.

(** The requests outstanding are exactly the one of the in-flight state. *)
Definition singleFlight (s : session) : Prop :=
  pending s = if GeneratorView.loading (view s) then [GeneratorView.settle] else [].

End GeneratorUI.

(** ** [AuditorView] *)

Module AuditorView.

Record state : Type := {
  draft : jsstring;
  loading : bool;
  response : value
}.

Definition initial : state :=
  {| draft := []; loading := false; response := VNull |}.

Definition setDraft (d : jsstring) (st : state) : state :=
  {| draft := d; loading := loading st; response := response st |}.
Definition setLoading (b : bool) (st : state) : state :=
  {| draft := draft st; loading := b; response := response st |}.
Definition setResponse (v : value) (st : state) : state :=
  {| draft := draft st; loading := loading st; response := v |}.

(** The body of [handleAudit] after the [await]. *)
Definition settle (o : Agent.settled) (st : state) : state * list (effect state) :=
  let '(st1, effects) :=
    match o with
    | Agent.Resolved result =>
        if Agent.ok result
        then (setResponse (Value.get (Agent.response result) (lit "result")) st, [])
        else (st, [ConsoleError (lit "Audit failed:") (LoggedValue (optional (Agent.error result)))])
    | Agent.Rejected e =>
        (st, [ConsoleError (lit "Audit error:") (LoggedExn e)])
    end in
  (setLoading false st1, effects).

Definition handleAudit (st : state)
  : task state Agent.call Agent.settled (effect state) :=
  if negb (JsString.truthy (JsString.trim (draft st))) then Finished st []
  else
    Await (setResponse VNull (setLoading true st))
          {| Agent.message := draft st; Agent.agent_id := Agent.COMPLIANCE_AUDITOR_AGENT_ID |}
          settle.

(** [disabled={loading || !draft.trim()}] on the submit button. *)
Definition auditDisabled (st : state) : bool :=
  loading st || negb (JsString.truthy (JsString.trim (draft st))).

Definition clickAudit (st : state)
  : task state Agent.call Agent.settled (effect state) :=
  if auditDisabled st then Finished st [] else handleAudit st.

End AuditorView.

(** ** [VaultView] *)

Module VaultView.

Record state : Type := {
  vaultContent : jsstring;
  saving : bool;
  saveMessage : jsstring
}.

Definition initial : state :=
  {| vaultContent := []; saving := false; saveMessage := [] |}.

Definition setVaultContent (c : jsstring) (st : state) : state :=
  {| vaultContent := c; saving := saving st; saveMessage := saveMessage st |}.
Definition setSaving (b : bool) (st : state) : state :=
  {| vaultContent := vaultContent st; saving := b; saveMessage := saveMessage st |}.
Definition setSaveMessage (m : jsstring) (st : state) : state :=
  {| vaultContent := vaultContent st; saving := saving st; saveMessage := m |}.

(** The body of [handleSave] after the simulated save has elapsed. *)
Definition saved (_ : unit) (st : state) : state * list (effect state) :=
  (setSaveMessage (lit "Knowledge Vault content saved and indexed successfully!")
                  (setSaving false st),
   [SetTimeout (setSaveMessage []) 5000]).

(** The request of the [await] is the delay, in milliseconds, of the
    promise that [setTimeout] resolves. *)
Definition handleSave (st : state) : task state N unit (effect state) :=
  if negb (JsString.truthy (JsString.trim (vaultContent st)))
  then Finished (setSaveMessage (lit "Please enter content to save") st) []
  else Await (setSaveMessage [] (setSaving true st)) 1000%N saved.

(** [disabled={saving || !vaultContent.trim()}] on the save button. *)
Definition saveDisabled (st : state) : bool :=
  saving st || negb (JsString.truthy (JsString.trim (vaultContent st))).

End VaultView.

(** ** The requests of the two controllers *)

(** The request [handleGenerate] sends from a state. *)
Definition generateCall (st : GeneratorView.state) : Agent.call :=
  {| Agent.message := GeneratorView.question st;
     Agent.agent_id := Agent.BID_GENERATOR_AGENT_ID |}.

(** The request [handleAudit] sends from a state. *)
Definition auditCall (st : AuditorView.state) : Agent.call :=
  {| Agent.message := AuditorView.draft st;
     Agent.agent_id := Agent.COMPLIANCE_AUDITOR_AGENT_ID |}.

(** ** Vocabulary of the specification *)

Module Spec.

(** The three score bands of section 4.4. *)
Inductive band : Type := good | moderate | poor.

(** The classes [AuditorView] renders each band with. *)
Definition bandColor (b : band) : jsstring :=
  match b with
  | good => lit "bg-green-500"
  | moderate => lit "bg-yellow-500"
  | poor => lit "bg-red-500"
  end.

Definition bandTextColor (b : band) : jsstring :=
  match b with
  | good => lit "text-green-900"
  | moderate => lit "text-yellow-900"
  | poor => lit "text-red-900"
  end.

(** Follows the words of section 4.4, not the source: [score > 80] is
    good, [50 <= score <= 80] is moderate, [score < 50] is poor. *)
Inductive inBand (score : number) : band -> Prop :=
| inGood : Number.gt score (Finite 80) = true -> inBand score good
| inModerate :
    Number.ge score (Finite 50) = true -> Number.le score (Finite 80) = true ->
    inBand score moderate
| inPoor : Number.lt score (Finite 50) = true -> inBand score poor.

(** A transport call fails: the success flag is false, or the call
    throws. *)
Definition transportFailed (o : Agent.settled) : bool :=
  match o with
  | Agent.Resolved r => negb (Agent.success r)
  | Agent.Rejected _ => true
  end.

Definition isString (v : value) : bool :=
  match v with VString _ => true | _ => false end.

Definition isArray (v : value) : bool :=
  match v with VArray _ => true | _ => false end.

Definition isGenerationStatus (v : value) : bool :=
  match v with
  | VString s => JsString.eqb s (lit "success") || JsString.eqb s (lit "missing_info")
  | _ => false
  end.

(** Follows the words of section 4.2, not the source: the required-field
    checks of the Generation shape, on the payload of the transport. *)
Definition generationShape (payload : value) : bool :=
  let result := Value.get payload (lit "result") in
  isString (Value.get result (lit "answer"))
  && isGenerationStatus (Value.get result (lit "status"))
  && isArray (Value.get result (lit "citations")).

(** The enumerations of the data model (section 3). *)
Definition riskLevels : list jsstring := [lit "safe"; lit "warning"; lit "danger"].

Definition statuses : list jsstring := [lit "VERIFIED"; lit "UNKNOWN"; lit "CONTRADICTION"].

(** The classes of the neutral badge and of the danger container. *)
Definition neutralBadge : jsstring := lit "bg-slate-100 text-slate-800 border-slate-200".

Definition dangerContainer : jsstring := lit "bg-red-50 border-red-200".

End Spec.

(** ** Concrete inputs *)

Module Sample.

(** A space, a tab, a line feed and a no-break space. *)
Definition blank : jsstring := [32; 9; 10; 160]%N.

Definition encryptionQuestion : jsstring := lit "What encryption do you use?".

Definition unhackableDraft : jsstring := lit "Our system is 100% unhackable.".

Definition askingGenerator : GeneratorView.state :=
  GeneratorView.setQuestion encryptionQuestion GeneratorView.initial.

(** The generator while its request is in flight. *)
Definition generatorInFlight : GeneratorView.state :=
  suspended (GeneratorView.handleGenerate askingGenerator).

Definition unreachable : Agent.result :=
  {| Agent.success := false; Agent.response := VUndefined;
     Agent.error := Some (lit "Agent unreachable") |}.

Definition silentFailure : Agent.result :=
  {| Agent.success := false; Agent.response := VUndefined; Agent.error := None |}.

(** [success: true] without a payload. *)
Definition emptySuccess : Agent.result :=
  {| Agent.success := true; Agent.response := VUndefined; Agent.error := None |}.

(** A [result] without [status] and [citations], whose [answer] is a
    number. *)
Definition malformedResult : value :=
  VObject [ (lit "answer", VNumber (Finite 42)) ].

Definition malformedSuccess : Agent.result :=
  {| Agent.success := true;
     Agent.response := VObject [ (lit "status", VString (lit "success"));
                                 (lit "result", malformedResult) ];
     Agent.error := None |}.

(** The audit result of scenario B of the specification. *)
Definition unhackableAudit : value :=
  VObject [ (lit "compliance_score", VNumber (Finite 20));
            (lit "total_sentences", VNumber (Finite 1));
            (lit "analysis",
             VArray [ VObject [ (lit "sentence", VString unhackableDraft);
                                (lit "status", VString (lit "CONTRADICTION"));
                                (lit "risk_level", VString (lit "danger"));
                                (lit "explanation",
                                 VString (lit "Vault states no system is 100% immune to threats."));
                                (lit "vault_reference", VString (lit "Incident Response")) ] ]);
            (lit "summary", VString (lit "One contradiction.")) ].

(** An auditor that shows the result of an earlier audit and holds a new
    draft. *)
Definition auditedBefore : AuditorView.state :=
  {| AuditorView.draft := unhackableDraft;
     AuditorView.loading := false;
     AuditorView.response := unhackableAudit |}.

Definition emptyVault : VaultView.state :=
  VaultView.setVaultContent blank VaultView.initial.

End Sample.

(** ** Searching in strings *)

Module StringSearch.

(** [sub] is a prefix of [s]. *)
Fixpoint startsWith (s sub : jsstring) : bool :=
  match sub, s with
  | [], _ => true
  | _ :: _, [] => false
  | x :: sub', y :: s' => N.eqb x y && startsWith s' sub'
  end.

(** [s.includes(sub)]: [sub] occurs somewhere in [s]. *)
Fixpoint includes (s sub : jsstring) : bool :=
  startsWith s sub
  || match s with
     | [] => false
     | _ :: s' => includes s' sub
     end.

End StringSearch.

(** ** The interfaces of the generator's result *)

Module Interfaces.

(** [interface Citation]: two strings. *)
Definition isCitation (v : value) : bool :=
  match v with
  | VObject _ =>
      Spec.isString (Value.get v (lit "source_text"))
      && Spec.isString (Value.get v (lit "relevance"))
  | _ => false
  end.

(** [warning?: string] *)
Definition isOptionalString (v : value) : bool :=
  match v with
  | VUndefined | VString _ => true
  | _ => false
  end.

(** [interface BidGeneratorResult] *)
Definition isBidGeneratorResult (v : value) : bool :=
  match v with
  | VObject _ =>
      Spec.isString (Value.get v (lit "answer"))
      && Spec.isGenerationStatus (Value.get v (lit "status"))
      && match Value.get v (lit "citations") with
         | VArray items => forallb isCitation items
         | _ => false
         end
      && isOptionalString (Value.get v (lit "warning"))
  | _ => false
  end.

(** A settlement after which what [handleGenerate] stores conforms to the
    interface: the transport failed or gave no payload, so the fallback is
    stored, or the [result] of the payload conforms. *)
Definition typedOutcome (o : Agent.settled) : bool :=
  match o with
  | Agent.Resolved r =>
      if Agent.ok r then isBidGeneratorResult (Value.get (Agent.response r) (lit "result"))
      else true
  | Agent.Rejected _ => true
  end.

End Interfaces.

(** ** What [GeneratorView] renders, and its copy button *)

Module GeneratorRender.

(** [v === 'literal'] *)
Definition strictEq (v : value) (l : jsstring) : bool :=
  match v with
  | VString s => JsString.eqb s l
  | _ => false
  end.

(** [v?.k] *)
Definition optionalGet (v : value) (k : jsstring) : value :=
  match v with
  | VUndefined | VNull => VUndefined
  | _ => Value.get v k
  end.

(** [{!response && !loading && ...}]: the invitation to ask. *)
Definition showPlaceholder (st : GeneratorView.state) : bool :=
  negb (Value.truthy (GeneratorView.response st)) && negb (GeneratorView.loading st).

(** [{loading && ...}] *)
Definition showSpinner (st : GeneratorView.state) : bool := GeneratorView.loading st.

(** [{response && ...}]: the guard of the block with the banner, the
    answer, the citations and the two buttons. Where it is false the block
    is not rendered. Where it is true the block is rendered, unless
    rendering it throws: the block reads [response.citations.map] and puts
    fields of the stored result in the page as they are, and the result is
    stored unchecked. A result that conforms to [Interfaces] renders. *)
Definition showResult (st : GeneratorView.state) : bool :=
  Value.truthy (GeneratorView.response st).

(** [{response.status === 'missing_info' && response.warning && ...}],
    inside the result block. *)
Definition showBanner (st : GeneratorView.state) : bool :=
  showResult st
  && strictEq (Value.get (GeneratorView.response st) (lit "status")) (lit "missing_info")
  && Value.truthy (Value.get (GeneratorView.response st) (lit "warning")).

(** [{response.answer && ...}], inside the result block. *)
Definition showAnswer (st : GeneratorView.state) : bool :=
  showResult st && Value.truthy (Value.get (GeneratorView.response st) (lit "answer")).

(** [disabled={!response.answer}] on the copy button. *)
Definition copyDisabled (st : GeneratorView.state) : bool :=
  negb (Value.truthy (Value.get (GeneratorView.response st) (lit "answer"))).

Definition setCopied (b : bool) (st : GeneratorView.state) : GeneratorView.state :=
  {| GeneratorView.question := GeneratorView.question st;
     GeneratorView.loading := GeneratorView.loading st;
     GeneratorView.response := GeneratorView.response st;
     GeneratorView.copied := b |}.

(** Modelled from the spec: the declaration of [copyToClipboard] lives in
    [@/lib/clipboard], outside the sources; section 6 gives it as
    [copy(text) -> boolean]. *)
Definition copied : Type := bool.

(** The body of [handleCopy] after the [await]. *)
Definition acknowledge (success : copied) (st : GeneratorView.state)
  : GeneratorView.state * list (effect GeneratorView.state) :=
  if success then (setCopied true st, [SetTimeout (setCopied false) 2000])
  else (st, []).

(** The request of the [await] is the text handed to [copyToClipboard]. *)
Definition handleCopy (st : GeneratorView.state)
  : task GeneratorView.state value copied (effect GeneratorView.state) :=
  if Value.truthy (optionalGet (GeneratorView.response st) (lit "answer"))
  then Await st (Value.get (GeneratorView.response st) (lit "answer")) acknowledge
  else Finished st [].

(** A click on the copy button, which exists only inside the result block
    and dispatches nothing while disabled. *)
Definition clickCopy (st : GeneratorView.state)
  : task GeneratorView.state value copied (effect GeneratorView.state) :=
  if showResult st && negb (copyDisabled st) then handleCopy st else Finished st [].

(** The invariant of the controls: nothing is stored while a request is in
    flight. *)
Definition quietInFlight (st : GeneratorView.state) : Prop :=
  GeneratorView.loading st = true -> GeneratorView.response st = VNull.

End GeneratorRender.

(** ** What [AuditorView] renders, and the view driven through its controls *)

Module AuditorRender.

(** [{response && ...}]: the guard of the score header. *)
Definition showHeader (st : AuditorView.state) : bool :=
  Value.truthy (AuditorView.response st).

(** [{loading && ...}] *)
Definition showSpinner (st : AuditorView.state) : bool := AuditorView.loading st.

(** [{response && !loading && ...}]: the guard of the analysis and the
    summary. Where it is false they are not rendered. Where it is true they
    are rendered, unless rendering them throws: the block reads
    [response.analysis.map], and the result is stored unchecked. *)
Definition showResults (st : AuditorView.state) : bool :=
  Value.truthy (AuditorView.response st) && negb (AuditorView.loading st).

(** [{!response && !loading && ...}] *)
Definition showPlaceholder (st : AuditorView.state) : bool :=
  negb (Value.truthy (AuditorView.response st)) && negb (AuditorView.loading st).

End AuditorRender.

Module AuditorUI.

Inductive event : Type :=
| TypeDraft (d : jsstring)
| ClickAudit
| Settle (o : Agent.settled).

Record session : Type := {
  view : AuditorView.state;
  pending : list (Agent.settled -> AuditorView.state
                  -> AuditorView.state * list (effect AuditorView.state));
  console : list (effect AuditorView.state)
}.

Definition start : session :=
  {| view := AuditorView.initial; pending := []; console := [] |}.

(** The [Textarea] is [disabled={loading}]; a settlement resumes the oldest
    suspended handler, and what it logs is appended to the console. *)
Definition step (s : session) (e : event) : session :=
  match e with
  | TypeDraft d =>
      if AuditorView.loading (view s) then s
      else {| view := AuditorView.setDraft d (view s);
              pending := pending s; console := console s |}
  | ClickAudit =>
      match AuditorView.clickAudit (view s) with
      | Finished st effects =>
          {| view := st; pending := pending s; console := console s ++ effects |}
      | Await st _ k =>
          {| view := st; pending := pending s ++ [k]; console := console s |}
      end
  | Settle o =>
      match pending s with
      | [] => s
      | k :: rest =>
          {| view := fst (k o (view s)); pending := rest;
             console := console s ++ snd (k o (view s)) |}
      end
  end.

Definition play (events : list event) : session := fold_left step events start.

(** The invariant of the controls. *)
Definition wellFormed (s : session) : Prop :=
  pending s = (if AuditorView.loading (view s) then [AuditorView.settle] else [])
  /\ (AuditorView.loading (view s) = true -> AuditorView.response (view s) = VNull).

End AuditorUI.

(** ** [VaultView]: the sample, the alert and the view driven through its
    controls *)

Module VaultControls.

Definition SAMPLE_VAULT_DATA : jsstring := lit "ENTERPRISE SECURITY POLICY

Data Encryption Standards:
All customer data must be encrypted using AES-256 encryption at rest and TLS 1.3 in transit. We employ industry-standard encryption protocols for all sensitive information.

Server Infrastructure:
Our servers are protected by multi-layered firewall systems with 24/7 monitoring. We maintain 99.9% uptime SLA and conduct regular security audits.

Data Storage:
Customer information is stored on SOC 2 Type II certified cloud platforms with automated daily backups and point-in-time recovery capabilities.

Incident Response:
While we maintain robust security measures, we acknowledge that no system is 100% immune to threats. Our incident response team follows documented procedures for any security events.".

Definition successMessage : jsstring :=
  lit "Knowledge Vault content saved and indexed successfully!".

Definition handleLoadSample (st : VaultView.state) : VaultView.state :=
  VaultView.setSaveMessage [] (VaultView.setVaultContent SAMPLE_VAULT_DATA st).

(** [{saveMessage && ...}] *)
Definition showAlert (st : VaultView.state) : bool :=
  JsString.truthy (VaultView.saveMessage st).

(** The [className] of the alert. *)
Definition alertClass (st : VaultView.state) : jsstring :=
  if StringSearch.includes (VaultView.saveMessage st) (lit "success")
  then lit "border-green-200 bg-green-50"
  else lit "border-yellow-200 bg-yellow-50".

(** The callbacks of the timers among some effects, in order. *)
Fixpoint timersOf (effects : list (effect VaultView.state))
  : list (VaultView.state -> VaultView.state) :=
  match effects with
  | [] => []
  | SetTimeout callback _ :: rest => callback :: timersOf rest
  | ConsoleError _ _ :: rest => timersOf rest
  end.

Inductive event : Type :=
| TypeContent (c : jsstring)
| ClickSave
| ClickLoadSample
| Elapse
| FireTimer.

(** The component state, the saves that wait for their delay and the
    timers that have not fired, oldest first. *)
Record session : Type := {
  view : VaultView.state;
  pending : list (unit -> VaultView.state
                  -> VaultView.state * list (effect VaultView.state));
  timers : list (VaultView.state -> VaultView.state)
}.

Definition start : session :=
  {| view := VaultView.initial; pending := []; timers := [] |}.

(** The [Textarea] and the sample button are [disabled={saving}], the save
    button is [disabled={saving || !vaultContent.trim()}]. All timers have
    the same delay, so they fire in the order they were set. *)
Definition step (s : session) (e : event) : session :=
  match e with
  | TypeContent c =>
      if VaultView.saving (view s) then s
      else {| view := VaultView.setVaultContent c (view s);
              pending := pending s; timers := timers s |}
  | ClickSave =>
      if VaultView.saveDisabled (view s) then s
      else
        match VaultView.handleSave (view s) with
        | Finished st effects =>
            {| view := st; pending := pending s; timers := timers s ++ timersOf effects |}
        | Await st _ k =>
            {| view := st; pending := pending s ++ [k]; timers := timers s |}
        end
  | ClickLoadSample =>
      if VaultView.saving (view s) then s
      else {| view := handleLoadSample (view s);
              pending := pending s; timers := timers s |}
  | Elapse =>
      match pending s with
      | [] => s
      | k :: rest =>
          {| view := fst (k tt (view s)); pending := rest;
             timers := timers s ++ timersOf (snd (k tt (view s))) |}
      end
  | FireTimer =>
      match timers s with
      | [] => s
      | callback :: rest =>
          {| view := callback (view s); pending := pending s; timers := rest |}
      end
  end.

Definition play (events : list event) : session := fold_left step events start.

(** The invariant of the controls. *)
Definition wellFormed (s : session) : Prop :=
  pending s = (if VaultView.saving (view s) then [VaultView.saved] else [])
  /\ Forall (fun callback => callback = VaultView.setSaveMessage []) (timers s)
  /\ (VaultView.saveMessage (view s) = []
      \/ VaultView.saveMessage (view s) = successMessage).

End VaultControls.

(** * Properties *)

(** ** Strings *)

Lemma jsstring_eqb_spec (a b : jsstring) : reflect (a = b) (JsString.eqb a b).
Proof.
  revert b; induction a as [|x a IH]; intros [|y b]; simpl;
    try (constructor; congruence).
  destruct (N.eqb_spec x y) as [->|Hxy]; simpl.
  - destruct (IH b) as [->|Hab]; constructor; congruence.
  - constructor; congruence.
Qed.

Lemma jsstring_eqb_refl (a : jsstring) : JsString.eqb a a = true.
Proof. destruct (jsstring_eqb_spec a a); congruence. Qed.

Lemma jsstring_eqb_neq (a b : jsstring) : a <> b -> JsString.eqb a b = false.
Proof. intros H; destruct (jsstring_eqb_spec a b); congruence. Qed.

Lemma trimStart_nil_iff (s : jsstring) :
  JsString.trimStart s = [] <-> forallb JsString.isWhiteSpace s = true.
Proof.
  induction s as [|c s IH]; simpl.
  - tauto.
  - destruct (JsString.isWhiteSpace c); simpl.
    + exact IH.
    + split; discriminate.
Qed.

Lemma forallb_rev {A} (f : A -> bool) (l : list A) :
  forallb f (rev l) = forallb f l.
Proof.
  induction l as [|x l IH]; simpl; [reflexivity|].
  rewrite forallb_app, IH; simpl.
  rewrite andb_true_r. apply andb_comm.
Qed.

Lemma trimEnd_nil_iff (s : jsstring) :
  JsString.trimEnd s = [] <-> forallb JsString.isWhiteSpace s = true.
Proof.
  unfold JsString.trimEnd.
  rewrite <- (forallb_rev _ s), <- trimStart_nil_iff.
  split; intros H.
  - apply (f_equal (@rev N)) in H. rewrite rev_involutive in H. exact H.
  - rewrite H. reflexivity.
Qed.

(** What [trimStart] leaves is blank only if the whole string was. *)
Lemma trimStart_blank (s : jsstring) :
  forallb JsString.isWhiteSpace (JsString.trimStart s) = forallb JsString.isWhiteSpace s.
Proof.
  induction s as [|c s IH]; simpl; [reflexivity|].
  destruct (JsString.isWhiteSpace c) eqn:E; simpl.
  - exact IH.
  - rewrite E. reflexivity.
Qed.

(** [s.trim()] is empty exactly when [s] holds nothing but white space. *)
Lemma trim_nil_iff (s : jsstring) :
  JsString.trim s = [] <-> forallb JsString.isWhiteSpace s = true.
Proof.
  unfold JsString.trim. rewrite trimEnd_nil_iff, trimStart_blank. tauto.
Qed.

Lemma not_truthy_trim (s : jsstring) :
  negb (JsString.truthy (JsString.trim s)) = true <-> JsString.trim s = [].
Proof.
  destruct (JsString.trim s); simpl; split; congruence.
Qed.

Lemma truthy_trim (s : jsstring) :
  JsString.trim s <> [] -> negb (JsString.truthy (JsString.trim s)) = false.
Proof.
  destruct (JsString.trim s); simpl; congruence.
Qed.

(** ** Values *)

(** A truthy receiver is neither [undefined] nor [null], so the property
    read behind [result.success && result.response] cannot throw. *)
Lemma truthy_receiver (v : value) :
  Value.truthy v = true -> v <> VUndefined /\ v <> VNull.
Proof. destruct v; simpl; intros H; split; congruence. Qed.

(** ** Numbers *)

Lemma gt_finite (x y : Q) : Number.gt (Finite x) (Finite y) = true <-> (y < x)%Q.
Proof.
  simpl. rewrite negb_true_iff. split.
  - intros H. apply Qnot_le_lt. intros Hle.
    apply Qle_bool_iff in Hle. congruence.
  - intros H. destruct (Qle_bool x y) eqn:E; [|reflexivity].
    apply Qle_bool_iff in E. exfalso. exact (Qlt_not_le _ _ H E).
Qed.

Lemma ge_finite (x y : Q) : Number.ge (Finite x) (Finite y) = true <-> (y <= x)%Q.
Proof. simpl. apply Qle_bool_iff. Qed.

(** [>] implies [>=], for every number. *)
Lemma gt_ge (a b : number) : Number.gt a b = true -> Number.ge a b = true.
Proof.
  destruct a as [| | |x], b as [| | |y]; simpl; try congruence.
  intros H. apply gt_finite in H. apply Qle_bool_iff. apply Qlt_le_weak. exact H.
Qed.

(** [a > b] and [a <= b] exclude each other. *)
Lemma gt_le_false (a b : number) :
  Number.gt a b = true -> Number.le a b = true -> False.
Proof.
  unfold Number.le.
  destruct a as [| | |x], b as [| | |y]; simpl; try congruence.
  rewrite negb_true_iff. congruence.
Qed.

(** [a >= b] and [a < b] exclude each other. *)
Lemma ge_lt_false (a b : number) :
  Number.ge a b = true -> Number.lt a b = true -> False.
Proof.
  unfold Number.lt.
  destruct a as [| | |x], b as [| | |y]; simpl; try congruence.
  rewrite negb_true_iff. congruence.
Qed.

(** On finite numbers one of [>], [<] or the two [>=] and [<=] holds. *)
Lemma finite_trichotomy (x y : Q) :
  Number.gt (Finite x) (Finite y) = true
  \/ Number.lt (Finite x) (Finite y) = true
  \/ (Number.ge (Finite x) (Finite y) = true /\ Number.le (Finite x) (Finite y) = true).
Proof.
  unfold Number.lt, Number.le. rewrite !gt_finite, !ge_finite.
  destruct (Q_dec x y) as [[H|H]|H].
  - right; left; exact H.
  - left; exact H.
  - right; right. split; rewrite H; apply Qle_refl.
Qed.

(** ** Score banding *)

Lemma getScoreColor_band (score : number) (b : Spec.band) :
  Spec.inBand score b ->
  Taxonomy.getScoreColor score = Spec.bandColor b
  /\ Taxonomy.getScoreTextColor score = Spec.bandTextColor b.
Proof.
  unfold Taxonomy.getScoreColor, Taxonomy.getScoreTextColor.
  intros [Hgood | Hlow Hhigh | Hpoor].
  - rewrite Hgood. split; reflexivity.
  - destruct (Number.gt score (Finite 80)) eqn:E.
    + exfalso. exact (gt_le_false _ _ E Hhigh).
    + rewrite Hlow. split; reflexivity.
  - destruct (Number.gt score (Finite 80)) eqn:E.
    + exfalso. apply gt_ge in E.
      destruct score as [| | |x]; simpl in *; try congruence.
      apply Qle_bool_iff in E. unfold Number.lt in Hpoor.
      apply gt_finite in Hpoor.
      apply (Qlt_irrefl 50). eapply Qlt_trans; [|exact Hpoor].
      eapply Qlt_le_trans; [|exact E]. reflexivity.
    + destruct (Number.ge score (Finite 50)) eqn:E'.
      * exfalso. exact (ge_lt_false _ _ E' Hpoor).
      * split; reflexivity.
Qed.

Lemma bandColor_inj (b b' : Spec.band) : Spec.bandColor b = Spec.bandColor b' -> b = b'.
Proof. destruct b, b'; intros H; try reflexivity; vm_compute in H; discriminate. Qed.

Lemma finite_in_some_band (q : Q) : exists b, Spec.inBand (Finite q) b.
Proof.
  destruct (finite_trichotomy q 80) as [H | [H | [_ H]]].
  - exists Spec.good. constructor. exact H.
  - destruct (finite_trichotomy q 50) as [H' | [H' | [H' _]]].
    + exists Spec.moderate. constructor; [apply gt_ge; exact H'|].
      unfold Number.le. apply gt_ge. exact H.
    + exists Spec.poor. constructor. exact H'.
    + exists Spec.moderate. constructor; [exact H'|].
      unfold Number.le. apply gt_ge. exact H.
  - destruct (finite_trichotomy q 50) as [H' | [H' | [H' _]]].
    + exists Spec.moderate. constructor; [apply gt_ge; exact H'|exact H].
    + exists Spec.poor. constructor. exact H'.
    + exists Spec.moderate. constructor; [exact H'|exact H].
Qed.

(** C1. The score band is a function of the score alone, with the exact
    boundaries [score > 80] good, [50 <= score <= 80] moderate and
    [score < 50] poor: whenever a score lies in a band, [getScoreColor] and
    [getScoreTextColor] return the classes of that band; every finite score
    (so every score of [0,100]) lies in a band, and no score lies in two;
    81 is good, 80 and 50 are moderate, 49 is poor. *)
Theorem score_banding :
  (forall score b, Spec.inBand score b ->
     Taxonomy.getScoreColor score = Spec.bandColor b
     /\ Taxonomy.getScoreTextColor score = Spec.bandTextColor b)
  /\ (forall q, exists b, Spec.inBand (Finite q) b)
  /\ (forall score b b', Spec.inBand score b -> Spec.inBand score b' -> b = b')
  /\ Taxonomy.getScoreColor (Finite 81) = Spec.bandColor Spec.good
  /\ Taxonomy.getScoreColor (Finite 80) = Spec.bandColor Spec.moderate
  /\ Taxonomy.getScoreColor (Finite 50) = Spec.bandColor Spec.moderate
  /\ Taxonomy.getScoreColor (Finite 49) = Spec.bandColor Spec.poor.
Proof.
  split; [exact getScoreColor_band|].
  split; [exact finite_in_some_band|].
  split.
  - intros score b b' Hb Hb'.
    apply bandColor_inj.
    destruct (getScoreColor_band _ _ Hb) as [<- _].
    destruct (getScoreColor_band _ _ Hb') as [<- _].
    reflexivity.
  - repeat split; reflexivity.
Qed.

Lemma score_banding_witness :
  Spec.inBand (Finite 80) Spec.moderate
  /\ Taxonomy.getScoreColor (Finite 80) = lit "bg-yellow-500"
  /\ Taxonomy.getScoreTextColor (Finite 80) = lit "text-yellow-900".
Proof.
  assert (H : Spec.inBand (Finite 80) Spec.moderate)
    by (constructor; reflexivity).
  split; [exact H|].
  exact (proj1 score_banding (Finite 80) Spec.moderate H).
Defined.

(** ** Risk badges, status icons and row containers *)

(** Splits a goal on the test of a [switch] case or of a [===]. *)
Ltac case_eqb s l :=
  destruct (jsstring_eqb_spec s l) as [?|?]; [try contradiction; try subst|].

Lemma getRiskBadgeColor_default (s : jsstring) :
  ~ In s Spec.riskLevels -> Taxonomy.getRiskBadgeColor s = Spec.neutralBadge.
Proof.
  unfold Spec.riskLevels; simpl; intros H.
  unfold Taxonomy.getRiskBadgeColor.
  case_eqb s (lit "safe"); [tauto|].
  case_eqb s (lit "warning"); [tauto|].
  case_eqb s (lit "danger"); [tauto|].
  reflexivity.
Qed.

Lemma getStatusIcon_default (s : jsstring) :
  ~ In s Spec.statuses -> Taxonomy.getStatusIcon s = None.
Proof.
  unfold Spec.statuses; simpl; intros H.
  unfold Taxonomy.getStatusIcon.
  case_eqb s (lit "VERIFIED"); [tauto|].
  case_eqb s (lit "UNKNOWN"); [tauto|].
  case_eqb s (lit "CONTRADICTION"); [tauto|].
  reflexivity.
Qed.

Lemma getRiskBadgeColor_inj (a b : jsstring) :
  In a Spec.riskLevels -> In b Spec.riskLevels ->
  Taxonomy.getRiskBadgeColor a = Taxonomy.getRiskBadgeColor b -> a = b.
Proof.
  unfold Spec.riskLevels; simpl.
  intros [<-|[<-|[<-|[]]]] [<-|[<-|[<-|[]]]] H;
    try reflexivity; vm_compute in H; discriminate.
Qed.

Lemma getStatusIcon_inj (a b : jsstring) :
  In a Spec.statuses -> In b Spec.statuses ->
  Taxonomy.getStatusIcon a = Taxonomy.getStatusIcon b -> a = b.
Proof.
  unfold Spec.statuses; simpl.
  intros [<-|[<-|[<-|[]]]] [<-|[<-|[<-|[]]]] H;
    try reflexivity; vm_compute in H; discriminate.
Qed.

Lemma getRiskBadgeColor_known (a : jsstring) :
  In a Spec.riskLevels -> Taxonomy.getRiskBadgeColor a <> Spec.neutralBadge.
Proof.
  unfold Spec.riskLevels; simpl.
  intros [<-|[<-|[<-|[]]]] H; vm_compute in H; discriminate.
Qed.

(** C7. [getRiskBadgeColor] and [getStatusIcon] are defined on every
    string. The three risk levels get three distinct badge classes, none of
    them the neutral one, and every other string gets the neutral badge;
    the three Spec.statuses get three distinct icons, and every other string
    gets no icon. *)
Theorem taxonomy_total :
  Taxonomy.getRiskBadgeColor (lit "safe") = lit "bg-green-100 text-green-800 border-green-200"
  /\ Taxonomy.getRiskBadgeColor (lit "warning") = lit "bg-yellow-100 text-yellow-800 border-yellow-200"
  /\ Taxonomy.getRiskBadgeColor (lit "danger") = lit "bg-red-100 text-red-800 border-red-200"
  /\ (forall a b, In a Spec.riskLevels -> In b Spec.riskLevels ->
        Taxonomy.getRiskBadgeColor a = Taxonomy.getRiskBadgeColor b -> a = b)
  /\ (forall a, In a Spec.riskLevels -> Taxonomy.getRiskBadgeColor a <> Spec.neutralBadge)
  /\ (forall s, ~ In s Spec.riskLevels -> Taxonomy.getRiskBadgeColor s = Spec.neutralBadge)
  /\ Taxonomy.getStatusIcon (lit "VERIFIED")
     = Some {| Taxonomy.component := Taxonomy.CheckCircle;
               Taxonomy.className := lit "h-5 w-5 text-green-600" |}
  /\ Taxonomy.getStatusIcon (lit "UNKNOWN")
     = Some {| Taxonomy.component := Taxonomy.AlertTriangle;
               Taxonomy.className := lit "h-5 w-5 text-yellow-600" |}
  /\ Taxonomy.getStatusIcon (lit "CONTRADICTION")
     = Some {| Taxonomy.component := Taxonomy.XCircle;
               Taxonomy.className := lit "h-5 w-5 text-red-600" |}
  /\ (forall a b, In a Spec.statuses -> In b Spec.statuses ->
        Taxonomy.getStatusIcon a = Taxonomy.getStatusIcon b -> a = b)
  /\ (forall s, ~ In s Spec.statuses -> Taxonomy.getStatusIcon s = None).
Proof.
  repeat match goal with |- _ /\ _ => split end; try reflexivity.
  - exact getRiskBadgeColor_inj.
  - exact getRiskBadgeColor_known.
  - exact getRiskBadgeColor_default.
  - exact getStatusIcon_inj.
  - exact getStatusIcon_default.
Qed.

Lemma not_in_cons {A} (x y : A) (l : list A) : x <> y -> ~ In x l -> ~ In x (y :: l).
Proof. intros Hxy Hl [H|H]; [congruence | exact (Hl H)]. Qed.

(** A lower-case status is not one of the three Spec.statuses, and a risk level
    in capitals is not one of the three risk levels. *)
Lemma taxonomy_total_witness :
  Taxonomy.getRiskBadgeColor (lit "DANGER") = Spec.neutralBadge
  /\ Taxonomy.getStatusIcon (lit "verified") = None.
Proof.
  destruct taxonomy_total as (_ & _ & _ & _ & _ & Hbadge & _ & _ & _ & _ & Hicon).
  split.
  - apply Hbadge. unfold Spec.riskLevels.
    repeat (apply not_in_cons; [vm_compute; discriminate|]). exact (fun H => H).
  - apply Hicon. unfold Spec.statuses.
    repeat (apply not_in_cons; [vm_compute; discriminate|]). exact (fun H => H).
Defined.

Lemma containerColor_default (s : jsstring) :
  s <> lit "safe" -> s <> lit "warning" -> Taxonomy.containerColor s = Spec.dangerContainer.
Proof.
  intros H1 H2. unfold Taxonomy.containerColor.
  rewrite (jsstring_eqb_neq _ _ H1), (jsstring_eqb_neq _ _ H2). reflexivity.
Qed.

(** C10. The container of an analysis row is classified from [risk_level]
    with a danger default: [safe] gets the safe container, [warning] the
    warning container, and every other string the danger container, so
    [danger] itself and every unrecognized string. An unrecognized risk
    level thus gets the danger container while [getRiskBadgeColor] gives it
    the neutral badge. *)
Theorem container_danger_default :
  Taxonomy.containerColor (lit "safe") = lit "bg-green-50 border-green-200"
  /\ Taxonomy.containerColor (lit "warning") = lit "bg-yellow-50 border-yellow-200"
  /\ Taxonomy.containerColor (lit "danger") = Spec.dangerContainer
  /\ (forall s, s <> lit "safe" -> s <> lit "warning" ->
        Taxonomy.containerColor s = Spec.dangerContainer
        /\ Taxonomy.containerClassName s = lit "p-4 rounded-lg border " ++ Spec.dangerContainer)
  /\ (forall s, ~ In s Spec.riskLevels ->
        Taxonomy.containerColor s = Spec.dangerContainer
        /\ Taxonomy.getRiskBadgeColor s = Spec.neutralBadge).
Proof.
  repeat match goal with |- _ /\ _ => split end; try reflexivity.
  - intros s H1 H2. unfold Taxonomy.containerClassName.
    rewrite (containerColor_default _ H1 H2). split; reflexivity.
  - intros s H. split.
    + apply containerColor_default; intros ->; apply H;
        unfold Spec.riskLevels; simpl; tauto.
    + apply getRiskBadgeColor_default. exact H.
Qed.

Lemma container_danger_default_witness :
  Taxonomy.containerColor (lit "critical") = Spec.dangerContainer
  /\ Taxonomy.getRiskBadgeColor (lit "critical") = Spec.neutralBadge.
Proof.
  destruct container_danger_default as (_ & _ & _ & _ & H).
  apply H. unfold Spec.riskLevels.
  repeat (apply not_in_cons; [vm_compute; discriminate|]). exact (fun H => H).
Defined.

(** ** The transport result *)

Lemma errorOr_message (r : Agent.result) (fallback e : jsstring) :
  Agent.error r = Some e -> e <> [] -> Agent.errorOr r fallback = e.
Proof.
  unfold Agent.errorOr. intros -> He.
  destruct e; [congruence | reflexivity].
Qed.

Lemma errorOr_fallback (r : Agent.result) (fallback : jsstring) :
  Agent.error r = None \/ Agent.error r = Some [] -> Agent.errorOr r fallback = fallback.
Proof. unfold Agent.errorOr. intros [-> | ->]; reflexivity. Qed.

Lemma errorOr_nonempty (r : Agent.result) (fallback : jsstring) :
  fallback <> [] -> Agent.errorOr r fallback <> [].
Proof.
  unfold Agent.errorOr. intros Hf.
  destruct (Agent.error r) as [[|c e]|]; simpl; congruence.
Qed.

Lemma ok_failed (r : Agent.result) : Agent.success r = false -> Agent.ok r = false.
Proof. unfold Agent.ok. intros ->. reflexivity. Qed.

Lemma ok_falsy (r : Agent.result) :
  Value.truthy (Agent.response r) = false -> Agent.ok r = false.
Proof. unfold Agent.ok. intros ->. apply andb_false_r. Qed.

Lemma ok_truthy (r : Agent.result) :
  Agent.success r = true -> Value.truthy (Agent.response r) = true -> Agent.ok r = true.
Proof. unfold Agent.ok. intros -> ->. reflexivity. Qed.

(** ** [GeneratorView]: submitting *)

Lemma handleGenerate_empty (st : GeneratorView.state) :
  JsString.trim (GeneratorView.question st) = [] ->
  GeneratorView.handleGenerate st = Finished st [].
Proof.
  intros H. unfold GeneratorView.handleGenerate. rewrite H. reflexivity.
Qed.

Lemma handleGenerate_submits (st : GeneratorView.state) :
  JsString.trim (GeneratorView.question st) <> [] ->
  GeneratorView.handleGenerate st
  = Await (GeneratorView.setResponse VNull (GeneratorView.setLoading true st))
          (generateCall st) GeneratorView.settle.
Proof.
  intros H. unfold GeneratorView.handleGenerate.
  rewrite (truthy_trim _ H). reflexivity.
Qed.

Lemma run_handleGenerate (collaborator : Agent.call -> Agent.settled)
      (st : GeneratorView.state) :
  JsString.trim (GeneratorView.question st) <> [] ->
  run collaborator (GeneratorView.handleGenerate st)
  = GeneratorView.settle (collaborator (generateCall st))
      (GeneratorView.setResponse VNull (GeneratorView.setLoading true st)).
Proof. intros H. rewrite (handleGenerate_submits _ H). reflexivity. Qed.

(** Whatever the outcome, the [finally] clause ends the in-flight state and
    the question is left as typed. *)
Lemma settle_generate_frame (o : Agent.settled) (st : GeneratorView.state) :
  GeneratorView.loading (fst (GeneratorView.settle o st)) = false
  /\ GeneratorView.question (fst (GeneratorView.settle o st)) = GeneratorView.question st
  /\ snd (GeneratorView.settle o st) = [].
Proof.
  unfold GeneratorView.settle.
  destruct o as [r | [m | v]]; [destruct (Agent.ok r)| |]; repeat split.
Qed.

Lemma settle_generate_not_ok (r : Agent.result) (st : GeneratorView.state) :
  Agent.ok r = false ->
  GeneratorView.response (fst (GeneratorView.settle (Agent.Resolved r) st))
  = GeneratorView.missingInfo (Agent.errorOr r (lit "Failed to generate answer")).
Proof. intros H. unfold GeneratorView.settle. rewrite H. reflexivity. Qed.

Lemma settle_generate_ok (r : Agent.result) (st : GeneratorView.state) :
  Agent.ok r = true ->
  GeneratorView.response (fst (GeneratorView.settle (Agent.Resolved r) st))
  = Value.get (Agent.response r) (lit "result").
Proof. intros H. unfold GeneratorView.settle. rewrite H. reflexivity. Qed.


(** X18. For every generation submit whose transport call fails, the
    controller ends the in-flight state and stores the object with an
    empty answer, status [missing_info], no citations and a warning. When
    the success flag is false the warning is the transport's error message
    if that is present and not empty, and [Failed to generate answer]
    otherwise: never empty. When a value that is not an [Error] is thrown
    the warning is [Network error]. When an [Error] is thrown the warning
    is its message. *)
Theorem generation_failure_result
        (collaborator : Agent.call -> Agent.settled) (st : GeneratorView.state) :
  JsString.trim (GeneratorView.question st) <> [] ->
  Spec.transportFailed (collaborator (generateCall st)) = true ->
  GeneratorView.loading (fst (run collaborator (GeneratorView.handleGenerate st))) = false
  /\ exists w,
       GeneratorView.response (fst (run collaborator (GeneratorView.handleGenerate st)))
       = VObject [ (lit "answer", VString []);
                   (lit "status", VString (lit "missing_info"));
                   (lit "citations", VArray []);
                   (lit "warning", VString w) ]
       /\ match collaborator (generateCall st) with
          | Agent.Resolved r =>
              (forall e, Agent.error r = Some e -> e <> [] -> w = e)
              /\ (Agent.error r = None \/ Agent.error r = Some [] ->
                  w = lit "Failed to generate answer")
              /\ w <> []
          | Agent.Rejected (Agent.Error message) => w = message
          | Agent.Rejected (Agent.NotError _) => w = lit "Network error"
          end.
Proof.
  intros Hq Hfail. rewrite (run_handleGenerate collaborator _ Hq).
  split; [apply settle_generate_frame|].
  destruct (collaborator (generateCall st)) as [r | [m | v]]; simpl in Hfail.
  - apply negb_true_iff in Hfail.
    exists (Agent.errorOr r (lit "Failed to generate answer")).
    split; [apply settle_generate_not_ok, ok_failed, Hfail|].
    split; [intros e; apply errorOr_message|].
    split; [apply errorOr_fallback|].
    apply errorOr_nonempty. vm_compute. discriminate.
  - exists m. split; reflexivity.
  - exists (lit "Network error"). split; reflexivity.
Qed.

Lemma generation_failure_result_witness :
  GeneratorView.response
    (fst (run (fun _ : Agent.call => Agent.Resolved Sample.unreachable)
              (GeneratorView.handleGenerate Sample.askingGenerator)))
  = VObject [ (lit "answer", VString []);
                 (lit "status", VString (lit "missing_info"));
                 (lit "citations", VArray []);
                 (lit "warning", VString (lit "Agent unreachable")) ].
Proof.
  assert (Hq : JsString.trim (GeneratorView.question Sample.askingGenerator) <> [])
    by (vm_compute; discriminate).
  destruct (generation_failure_result
              (fun _ : Agent.call => Agent.Resolved Sample.unreachable)
              Sample.askingGenerator Hq eq_refl) as (_ & w & H & Hw & _).
  rewrite H. rewrite (Hw (lit "Agent unreachable") eq_refl); [reflexivity|].
  vm_compute. discriminate.
Defined.

(** ** [GeneratorView]: a successful transport call *)

(** C3, as stated, fails: the transport succeeds with a payload whose
    [result] has a number for [answer] and neither [status] nor
    [citations]; the payload fails the required-field checks, and the
    controller stores that [result], not the synthetic fallback. *)
Lemma generation_malformed_payload_stored :
  let collaborator := fun _ : Agent.call => Agent.Resolved Sample.malformedSuccess in
  let stored :=
    GeneratorView.response
      (fst (run collaborator (GeneratorView.handleGenerate Sample.askingGenerator))) in
  Agent.success Sample.malformedSuccess = true
  /\ Spec.generationShape (Agent.response Sample.malformedSuccess) = false
  /\ stored = Sample.malformedResult
  /\ (forall w, stored <> GeneratorView.missingInfo w).
Proof.
  cbv zeta. repeat split. intros w H. vm_compute in H. discriminate.
Qed.

(** C3, amended. On a successful transport call the controller applies no
    required-field check. When the payload is truthy it stores the
    payload's [result] as it is, whatever its shape ([undefined] when the
    payload has no [result]). It stores the synthetic fallback, with the
    transport's error message or [Failed to generate answer] as warning,
    only when the payload is falsy. *)
Theorem generation_success_unchecked
        (collaborator : Agent.call -> Agent.settled) (st : GeneratorView.state)
        (r : Agent.result) :
  JsString.trim (GeneratorView.question st) <> [] ->
  collaborator (generateCall st) = Agent.Resolved r ->
  Agent.success r = true ->
  (Value.truthy (Agent.response r) = true ->
     GeneratorView.response (fst (run collaborator (GeneratorView.handleGenerate st)))
     = Value.get (Agent.response r) (lit "result"))
  /\ (Value.truthy (Agent.response r) = false ->
     GeneratorView.response (fst (run collaborator (GeneratorView.handleGenerate st)))
     = GeneratorView.missingInfo (Agent.errorOr r (lit "Failed to generate answer"))).
Proof.
  intros Hq Hr Hs. rewrite (run_handleGenerate collaborator _ Hq), Hr.
  split; intros Ht.
  - apply settle_generate_ok, ok_truthy; assumption.
  - apply settle_generate_not_ok, ok_falsy; assumption.
Qed.

Lemma generation_success_unchecked_witness :
  let collaborator := fun _ : Agent.call => Agent.Resolved Sample.malformedSuccess in
  GeneratorView.response
    (fst (run collaborator (GeneratorView.handleGenerate Sample.askingGenerator)))
  = Value.get (Agent.response Sample.malformedSuccess) (lit "result").
Proof.
  cbv zeta.
  assert (Hq : JsString.trim (GeneratorView.question Sample.askingGenerator) <> [])
    by (vm_compute; discriminate).
  exact (proj1 (generation_success_unchecked
                  (fun _ : Agent.call => Agent.Resolved Sample.malformedSuccess)
                  Sample.askingGenerator Sample.malformedSuccess Hq eq_refl eq_refl)
               eq_refl).
Defined.

(** C9. When the transport reports success but the payload is [undefined],
    [null] or the empty string, the controller does exactly what it does
    for the same result with the success flag false: it stores the
    synthetic result with an empty answer, status [missing_info] and no
    citations, whose warning is the transport's error when that is present
    and not empty, and [Failed to generate answer] otherwise. *)
Theorem generation_success_without_payload
        (collaborator : Agent.call -> Agent.settled) (st : GeneratorView.state)
        (r : Agent.result) :
  JsString.trim (GeneratorView.question st) <> [] ->
  collaborator (generateCall st) = Agent.Resolved r ->
  Agent.success r = true ->
  Agent.response r = VUndefined \/ Agent.response r = VNull \/ Agent.response r = VString [] ->
  run collaborator (GeneratorView.handleGenerate st)
  = run (fun _ => Agent.Resolved {| Agent.success := false;
                                    Agent.response := Agent.response r;
                                    Agent.error := Agent.error r |})
        (GeneratorView.handleGenerate st)
  /\ GeneratorView.response (fst (run collaborator (GeneratorView.handleGenerate st)))
     = VObject [ (lit "answer", VString []);
                 (lit "status", VString (lit "missing_info"));
                 (lit "citations", VArray []);
                 (lit "warning", VString (Agent.errorOr r (lit "Failed to generate answer"))) ]
  /\ (forall e, Agent.error r = Some e -> e <> [] ->
        Agent.errorOr r (lit "Failed to generate answer") = e)
  /\ (Agent.error r = None \/ Agent.error r = Some [] ->
        Agent.errorOr r (lit "Failed to generate answer") = lit "Failed to generate answer").
Proof.
  intros Hq Hr Hs Hp.
  assert (Hfalsy : Value.truthy (Agent.response r) = false)
    by (destruct Hp as [-> | [-> | ->]]; reflexivity).
  rewrite !run_handleGenerate by exact Hq. rewrite Hr.
  split; [|split; [|split]].
  - unfold GeneratorView.settle.
    rewrite (ok_falsy r Hfalsy). reflexivity.
  - apply settle_generate_not_ok, ok_falsy, Hfalsy.
  - intros e. apply errorOr_message.
  - apply errorOr_fallback.
Qed.

Lemma generation_success_without_payload_witness :
  GeneratorView.response
    (fst (run (fun _ : Agent.call => Agent.Resolved Sample.emptySuccess)
              (GeneratorView.handleGenerate Sample.askingGenerator)))
  = VObject [ (lit "answer", VString []);
                 (lit "status", VString (lit "missing_info"));
                 (lit "citations", VArray []);
                 (lit "warning", VString (lit "Failed to generate answer")) ].
Proof.
  assert (Hq : JsString.trim (GeneratorView.question Sample.askingGenerator) <> [])
    by (vm_compute; discriminate).
  pose proof (generation_success_without_payload
                (fun _ : Agent.call => Agent.Resolved Sample.emptySuccess)
                Sample.askingGenerator Sample.emptySuccess Hq eq_refl eq_refl
                (or_introl eq_refl)) as (_ & H & _).
  exact H.
Defined.

(** ** [GeneratorView]: submitting while a request is in flight *)

(** C4, as stated, fails: with a request in flight ([loading] is true) and
    the question still in place, [handleGenerate] sends a second request. *)
Lemma generation_resubmit_in_flight :
  GeneratorView.loading Sample.generatorInFlight = true
  /\ requests (GeneratorView.handleGenerate Sample.generatorInFlight)
     = [ {| Agent.message := Sample.encryptionQuestion;
            Agent.agent_id := Agent.BID_GENERATOR_AGENT_ID |} ].
Proof. split; reflexivity. Qed.

Lemma step_singleFlight (s : GeneratorUI.session) (e : GeneratorUI.event) :
  GeneratorUI.singleFlight s -> GeneratorUI.singleFlight (GeneratorUI.step s e).
Proof.
  unfold GeneratorUI.singleFlight. intros Inv.
  destruct e as [q | | | o]; simpl.
  - destruct (GeneratorView.loading (GeneratorUI.view s)) eqn:El; simpl.
    + rewrite El. exact Inv.
    + rewrite El. exact Inv.
  - unfold GeneratorView.clickGenerate, GeneratorView.generateDisabled,
      GeneratorView.handleGenerate.
    destruct (GeneratorView.loading (GeneratorUI.view s)) eqn:El; simpl.
    + rewrite El. exact Inv.
    + destruct (negb (JsString.truthy
                        (JsString.trim (GeneratorView.question (GeneratorUI.view s)))));
        simpl.
      * rewrite El. exact Inv.
      * rewrite Inv. reflexivity.
  - destruct (Value.truthy (GeneratorView.response (GeneratorUI.view s))); simpl;
      exact Inv.
  - destruct (GeneratorView.loading (GeneratorUI.view s)) eqn:El; rewrite Inv.
    + cbn [GeneratorUI.view GeneratorUI.pending].
      destruct (settle_generate_frame o (GeneratorUI.view s)) as (-> & _).
      reflexivity.
    + rewrite El, Inv. reflexivity.
Qed.

Lemma fold_singleFlight (events : list GeneratorUI.event) (s : GeneratorUI.session) :
  GeneratorUI.singleFlight s ->
  GeneratorUI.singleFlight (fold_left GeneratorUI.step events s).
Proof.
  revert s. induction events as [|e events IH]; intros s Inv; simpl.
  - exact Inv.
  - apply IH, step_singleFlight, Inv.
Qed.

(** However the controls are used, the requests outstanding are the one
    of the in-flight state and no more. *)
Lemma play_singleFlight (events : list GeneratorUI.event) :
  GeneratorUI.singleFlight (GeneratorUI.play events).
Proof. apply fold_singleFlight. reflexivity. Qed.

(** C4, amended. While a generation request is in flight the submit button
    is disabled, so a click on it is a no-op: no transport call, and the
    state is left as it is. A controller driven through its controls thus
    never has more than one request outstanding. The guard is the disabled
    control alone: [handleGenerate] looks only at the trimmed question, and
    when it is invoked with a question that is not blank it sends a
    request, in flight or not. *)
Theorem generation_in_flight_guard :
  (forall st, GeneratorView.loading st = true ->
     GeneratorView.generateDisabled st = true
     /\ GeneratorView.clickGenerate st = Finished st []
     /\ requests (GeneratorView.clickGenerate st) = [])
  /\ (forall events, (List.length (GeneratorUI.pending (GeneratorUI.play events)) <= 1)%nat)
  /\ (forall st, JsString.trim (GeneratorView.question st) <> [] ->
      requests (GeneratorView.handleGenerate st) = [generateCall st]).
Proof.
  split; [|split].
  - intros st Hl.
    assert (Hd : GeneratorView.generateDisabled st = true)
      by (unfold GeneratorView.generateDisabled; rewrite Hl; reflexivity).
    unfold GeneratorView.clickGenerate. rewrite Hd. repeat split.
  - intros events. rewrite (play_singleFlight events).
    destruct (GeneratorView.loading _); simpl; auto.
  - intros st Hq. rewrite (handleGenerate_submits _ Hq). reflexivity.
Qed.

Lemma generation_in_flight_guard_witness :
  GeneratorView.clickGenerate Sample.generatorInFlight
  = Finished Sample.generatorInFlight []
  /\ requests (GeneratorView.handleGenerate Sample.generatorInFlight)
     = [generateCall Sample.generatorInFlight].
Proof.
  destruct generation_in_flight_guard as (Hclick & _ & Hdirect).
  split.
  - apply (Hclick Sample.generatorInFlight). reflexivity.
  - apply Hdirect. vm_compute. discriminate.
Defined.

(** ** [AuditorView] *)

Lemma handleAudit_empty (st : AuditorView.state) :
  JsString.trim (AuditorView.draft st) = [] ->
  AuditorView.handleAudit st = Finished st [].
Proof.
  intros H. unfold AuditorView.handleAudit. rewrite H. reflexivity.
Qed.

Lemma run_handleAudit (collaborator : Agent.call -> Agent.settled)
      (st : AuditorView.state) :
  JsString.trim (AuditorView.draft st) <> [] ->
  run collaborator (AuditorView.handleAudit st)
  = AuditorView.settle (collaborator (auditCall st))
      (AuditorView.setResponse VNull (AuditorView.setLoading true st)).
Proof.
  intros H. unfold AuditorView.handleAudit.
  rewrite (truthy_trim _ H). reflexivity.
Qed.

(** The failure paths of [handleAudit] store nothing: they log one
    diagnostic and leave the response as they found it. *)
Lemma settle_audit_failure (o : Agent.settled) (st : AuditorView.state) :
  Spec.transportFailed o = true ->
  AuditorView.response (fst (AuditorView.settle o st)) = AuditorView.response st
  /\ AuditorView.draft (fst (AuditorView.settle o st)) = AuditorView.draft st
  /\ AuditorView.loading (fst (AuditorView.settle o st)) = false
  /\ snd (AuditorView.settle o st)
     = match o with
       | Agent.Resolved r =>
           [ConsoleError (lit "Audit failed:") (LoggedValue (optional (Agent.error r)))]
       | Agent.Rejected e =>
           [ConsoleError (lit "Audit error:") (LoggedExn e)]
       end.
Proof.
  destruct o as [r | e]; simpl; intros H.
  - apply negb_true_iff in H. unfold AuditorView.settle.
    rewrite (ok_failed r H). repeat split.
  - repeat split.
Qed.

(** C5, as stated, fails: an auditor that shows the result of an earlier
    audit loses it on a failed submit; the stored result is not what it was
    before the submit. *)
Lemma audit_failure_clears_prior_result :
  let collaborator := fun _ : Agent.call => Agent.Resolved Sample.unreachable in
  let after := fst (run collaborator (AuditorView.handleAudit Sample.auditedBefore)) in
  Spec.transportFailed (collaborator (auditCall Sample.auditedBefore)) = true
  /\ AuditorView.response Sample.auditedBefore = Sample.unhackableAudit
  /\ AuditorView.response after = VNull
  /\ AuditorView.response after <> AuditorView.response Sample.auditedBefore.
Proof.
  cbv zeta. repeat split. intros H. vm_compute in H. discriminate.
Qed.

(** C5, amended. For every audit submit whose transport call fails or
    throws, the stored result is [null] afterwards: the submit itself
    clears the result stored before it, and the failure path stores
    nothing (it leaves the response as it was while the request was in
    flight). The stored result is therefore unchanged from before the
    submit exactly when there was none. The failure is logged as one
    diagnostic and nothing else happens, apart from the end of the
    in-flight state. *)
Theorem audit_failure_silent
        (collaborator : Agent.call -> Agent.settled) (st : AuditorView.state) :
  JsString.trim (AuditorView.draft st) <> [] ->
  Spec.transportFailed (collaborator (auditCall st)) = true ->
  AuditorView.response (fst (run collaborator (AuditorView.handleAudit st))) = VNull
  /\ (AuditorView.response (fst (run collaborator (AuditorView.handleAudit st)))
      = AuditorView.response st <-> AuditorView.response st = VNull)
  /\ AuditorView.response (fst (run collaborator (AuditorView.handleAudit st)))
     = AuditorView.response (suspended (AuditorView.handleAudit st))
  /\ AuditorView.loading (fst (run collaborator (AuditorView.handleAudit st))) = false
  /\ AuditorView.draft (fst (run collaborator (AuditorView.handleAudit st)))
     = AuditorView.draft st
  /\ snd (run collaborator (AuditorView.handleAudit st))
     = match collaborator (auditCall st) with
       | Agent.Resolved r =>
           [ConsoleError (lit "Audit failed:") (LoggedValue (optional (Agent.error r)))]
       | Agent.Rejected e =>
           [ConsoleError (lit "Audit error:") (LoggedExn e)]
       end.
Proof.
  intros Hq Hfail.
  rewrite (run_handleAudit collaborator _ Hq).
  destruct (settle_audit_failure _
              (AuditorView.setResponse VNull (AuditorView.setLoading true st)) Hfail)
    as (Hresp & Hdraft & Hload & Hlog).
  rewrite Hresp, Hdraft, Hload, Hlog. simpl.
  split; [reflexivity|].
  split; [split; congruence|].
  split.
  - unfold AuditorView.handleAudit. rewrite (truthy_trim _ Hq). reflexivity.
  - repeat split.
Qed.

Lemma audit_failure_silent_witness :
  let collaborator := fun _ : Agent.call => Agent.Rejected (Agent.Error (lit "timeout")) in
  AuditorView.response
    (fst (run collaborator (AuditorView.handleAudit Sample.auditedBefore))) = VNull
  /\ snd (run collaborator (AuditorView.handleAudit Sample.auditedBefore))
     = [ConsoleError (lit "Audit error:") (LoggedExn (Agent.Error (lit "timeout")))].
Proof.
  cbv zeta.
  assert (Hq : JsString.trim (AuditorView.draft Sample.auditedBefore) <> [])
    by (vm_compute; discriminate).
  pose proof (audit_failure_silent
                (fun _ : Agent.call => Agent.Rejected (Agent.Error (lit "timeout")))
                Sample.auditedBefore Hq eq_refl) as (Hnull & _ & _ & _ & _ & Hlog).
  split; [exact Hnull | exact Hlog].
Defined.

(** ** Blank input *)

(** C6. When the trimmed question is empty [handleGenerate] returns at
    once, and when the trimmed draft is empty so does [handleAudit]: no
    transport call is made, nothing is logged, and the controller state,
    with its loading flag and its stored result, is left as it was. *)
Theorem empty_input_rejected :
  (forall st, JsString.trim (GeneratorView.question st) = [] ->
     GeneratorView.handleGenerate st = Finished st []
     /\ requests (GeneratorView.handleGenerate st) = []
     /\ (forall collaborator,
           run collaborator (GeneratorView.handleGenerate st) = (st, []))
     /\ (GeneratorView.loading st = false ->
         GeneratorView.loading (suspended (GeneratorView.handleGenerate st)) = false))
  /\ (forall st, JsString.trim (AuditorView.draft st) = [] ->
     AuditorView.handleAudit st = Finished st []
     /\ requests (AuditorView.handleAudit st) = []
     /\ (forall collaborator,
           run collaborator (AuditorView.handleAudit st) = (st, []))
     /\ (AuditorView.loading st = false ->
         AuditorView.loading (suspended (AuditorView.handleAudit st)) = false)).
Proof.
  split; intros st H.
  - rewrite (handleGenerate_empty st H). simpl. repeat split; auto.
  - rewrite (handleAudit_empty st H). simpl. repeat split; auto.
Qed.

Lemma empty_input_rejected_witness :
  let blankQuestion := GeneratorView.setQuestion Sample.blank Sample.generatorInFlight in
  let blankDraft := AuditorView.setDraft Sample.blank Sample.auditedBefore in
  GeneratorView.handleGenerate blankQuestion = Finished blankQuestion []
  /\ AuditorView.handleAudit blankDraft = Finished blankDraft [].
Proof.
  cbv zeta. destruct empty_input_rejected as (Hgenerate & Haudit). split.
  - apply Hgenerate. reflexivity.
  - apply Haudit. reflexivity.
Defined.

(** ** [VaultView] *)

(** C8. When the trimmed vault content is empty, [handleSave] returns at
    once with the message [Please enter content to save]: the saving flag
    is not touched, there is no delay to wait for, no timer is set, and the
    content is left as it was. *)
Theorem vault_save_empty (st : VaultView.state) :
  JsString.trim (VaultView.vaultContent st) = [] ->
  VaultView.handleSave st
  = Finished (VaultView.setSaveMessage (lit "Please enter content to save") st) []
  /\ requests (VaultView.handleSave st) = []
  /\ VaultView.saving (suspended (VaultView.handleSave st)) = VaultView.saving st
  /\ VaultView.saveMessage (suspended (VaultView.handleSave st))
     = lit "Please enter content to save"
  /\ VaultView.vaultContent (suspended (VaultView.handleSave st)) = VaultView.vaultContent st
  /\ (forall elapse,
        run elapse (VaultView.handleSave st)
        = (VaultView.setSaveMessage (lit "Please enter content to save") st, [])).
Proof.
  intros H. unfold VaultView.handleSave. rewrite H. simpl. repeat split.
Qed.

Lemma vault_save_empty_witness :
  VaultView.handleSave Sample.emptyVault
  = Finished (VaultView.setSaveMessage (lit "Please enter content to save") Sample.emptyVault) []
  /\ VaultView.saving (suspended (VaultView.handleSave Sample.emptyVault)) = false.
Proof.
  pose proof (vault_save_empty Sample.emptyVault eq_refl) as (H & _ & Hs & _).
  split; [exact H | exact Hs].
Defined.

(** With content, [handleSave] does enter the saving state and waits one
    second, so the early return above is the only way around it. *)
Lemma vault_save_content (st : VaultView.state) :
  JsString.trim (VaultView.vaultContent st) <> [] ->
  VaultView.saving (suspended (VaultView.handleSave st)) = true
  /\ requests (VaultView.handleSave st) = [1000%N].
Proof.
  intros H. unfold VaultView.handleSave.
  rewrite (truthy_trim _ H). split; reflexivity.
Qed.

(** * Further properties of the views *)

(** ** Score colours *)

Lemma ge_finite_trans (a b : number) (q : Q) :
  Number.ge a (Finite q) = true -> Number.ge b a = true ->
  Number.ge b (Finite q) = true.
Proof.
  destruct a as [| | |x], b as [| | |y]; simpl; try congruence.
  intros H1 H2. apply Qle_bool_iff in H1. apply Qle_bool_iff in H2.
  apply Qle_bool_iff. eapply Qle_trans; eassumption.
Qed.

Lemma gt_finite_trans (a b : number) (q : Q) :
  Number.gt a (Finite q) = true -> Number.ge b a = true ->
  Number.gt b (Finite q) = true.
Proof.
  destruct a as [| | |x], b as [| | |y]; simpl; try congruence.
  intros H1 H2. apply (proj1 (gt_finite x q)) in H1. apply Qle_bool_iff in H2.
  apply (proj2 (gt_finite y q)). eapply Qlt_le_trans; eassumption.
Qed.

(** X1. The colour of the score header never gets worse when the score grows:
    above a green score everything is green, and below a red score
    everything is red. *)
Theorem getScoreColor_monotone (a b : number) :
  Number.le a b = true ->
  (Taxonomy.getScoreColor a = lit "bg-green-500" ->
   Taxonomy.getScoreColor b = lit "bg-green-500")
  /\ (Taxonomy.getScoreColor a <> lit "bg-red-500" ->
      Taxonomy.getScoreColor b <> lit "bg-red-500").
Proof.
  unfold Number.le, Taxonomy.getScoreColor. intros Hab. split.
  - destruct (Number.gt a (Finite 80)) eqn:Ea.
    + rewrite (gt_finite_trans a b 80 Ea Hab). reflexivity.
    + destruct (Number.ge a (Finite 50)); intros H; vm_compute in H; discriminate.
  - destruct (Number.gt a (Finite 80)) eqn:Ea.
    + rewrite (gt_finite_trans a b 80 Ea Hab). intros _ H.
      vm_compute in H. discriminate.
    + destruct (Number.ge a (Finite 50)) eqn:Ea'.
      * rewrite (ge_finite_trans a b 50 Ea' Hab).
        destruct (Number.gt b (Finite 80)); intros _ H; vm_compute in H; discriminate.
      * intros H. exfalso. apply H. reflexivity.
Qed.

Lemma getScoreColor_monotone_witness :
  Number.le (Finite 81) (Finite 100) = true
  /\ Taxonomy.getScoreColor (Finite 100) = lit "bg-green-500".
Proof.
  split; [reflexivity|].
  exact (proj1 (getScoreColor_monotone (Finite 81) (Finite 100) eq_refl) eq_refl).
Defined.

(** X2. The background and the text colour of a score always belong to the
    same band, whatever the number; a score that is not a number, and
    minus infinity, are shown as poor, plus infinity as good. *)
Theorem score_colours_paired (score : number) :
  (exists b, Taxonomy.getScoreColor score = Spec.bandColor b
             /\ Taxonomy.getScoreTextColor score = Spec.bandTextColor b)
  /\ Taxonomy.getScoreColor NaN = Spec.bandColor Spec.poor
  /\ Taxonomy.getScoreColor NegInf = Spec.bandColor Spec.poor
  /\ Taxonomy.getScoreColor PosInf = Spec.bandColor Spec.good.
Proof.
  split; [|repeat split].
  unfold Taxonomy.getScoreColor, Taxonomy.getScoreTextColor.
  destruct (Number.gt score (Finite 80)).
  - exists Spec.good. split; reflexivity.
  - destruct (Number.ge score (Finite 50)).
    + exists Spec.moderate. split; reflexivity.
    + exists Spec.poor. split; reflexivity.
Qed.

(** ** When the submit buttons are enabled *)

Lemma trim_not_nil_iff (s : jsstring) :
  JsString.trim s <> [] <-> existsb (fun c => negb (JsString.isWhiteSpace c)) s = true.
Proof.
  rewrite trim_nil_iff. induction s as [|c s IH]; simpl.
  - split; [intros H; exfalso; apply H; reflexivity | discriminate].
  - destruct (JsString.isWhiteSpace c); simpl.
    + exact IH.
    + split; [reflexivity | discriminate].
Qed.

Lemma blank_test (s : jsstring) :
  negb (JsString.truthy (JsString.trim s)) = false
  <-> existsb (fun c => negb (JsString.isWhiteSpace c)) s = true.
Proof.
  rewrite <- trim_not_nil_iff.
  destruct (JsString.trim s); simpl; split; congruence.
Qed.

Lemma disabled_iff (busy : bool) (s : jsstring) :
  busy || negb (JsString.truthy (JsString.trim s)) = false
  <-> busy = false /\ existsb (fun c => negb (JsString.isWhiteSpace c)) s = true.
Proof. rewrite orb_false_iff, blank_test. tauto. Qed.

(** X3. Each of the three submit buttons is enabled exactly when its view is
    not busy and its text holds a character that is not white space. *)
Theorem buttons_enabled :
  (forall st, GeneratorView.generateDisabled st = false
     <-> GeneratorView.loading st = false
         /\ existsb (fun c => negb (JsString.isWhiteSpace c))
                    (GeneratorView.question st) = true)
  /\ (forall st, AuditorView.auditDisabled st = false
     <-> AuditorView.loading st = false
         /\ existsb (fun c => negb (JsString.isWhiteSpace c))
                    (AuditorView.draft st) = true)
  /\ (forall st, VaultView.saveDisabled st = false
     <-> VaultView.saving st = false
         /\ existsb (fun c => negb (JsString.isWhiteSpace c))
                    (VaultView.vaultContent st) = true).
Proof.
  split; [|split]; intros st.
  - apply disabled_iff.
  - apply disabled_iff.
  - apply disabled_iff.
Qed.

(** ** [AuditorView]: a resolved transport call *)

(** X4. When the transport reports success, [handleAudit] stores the payload's
    [result] as it is and logs nothing if the payload is truthy; if the
    payload is falsy it stores nothing, leaves the view without a result
    and logs the same diagnostic as for a failure. *)
Theorem audit_resolved
        (collaborator : Agent.call -> Agent.settled) (st : AuditorView.state)
        (r : Agent.result) :
  JsString.trim (AuditorView.draft st) <> [] ->
  collaborator (auditCall st) = Agent.Resolved r ->
  Agent.success r = true ->
  AuditorView.loading (fst (run collaborator (AuditorView.handleAudit st))) = false
  /\ (Value.truthy (Agent.response r) = true ->
      AuditorView.response (fst (run collaborator (AuditorView.handleAudit st)))
      = Value.get (Agent.response r) (lit "result")
      /\ snd (run collaborator (AuditorView.handleAudit st)) = [])
  /\ (Value.truthy (Agent.response r) = false ->
      AuditorView.response (fst (run collaborator (AuditorView.handleAudit st))) = VNull
      /\ snd (run collaborator (AuditorView.handleAudit st))
         = [ConsoleError (lit "Audit failed:") (LoggedValue (optional (Agent.error r)))]).
Proof.
  intros Hq Hr Hs. rewrite (run_handleAudit collaborator _ Hq), Hr.
  unfold AuditorView.settle.
  split; [destruct (Agent.ok r); reflexivity|].
  split; intros Ht.
  - rewrite (ok_truthy r Hs Ht). split; reflexivity.
  - rewrite (ok_falsy r Ht). split; reflexivity.
Qed.

Lemma audit_resolved_witness :
  let answer := {| Agent.success := true;
                   Agent.response := VObject [ (lit "result", Sample.unhackableAudit) ];
                   Agent.error := None |} in
  AuditorView.response
    (fst (run (fun _ => Agent.Resolved answer)
              (AuditorView.handleAudit Sample.auditedBefore)))
  = Sample.unhackableAudit.
Proof.
  cbv zeta.
  assert (Hq : JsString.trim (AuditorView.draft Sample.auditedBefore) <> [])
    by (vm_compute; discriminate).
  pose proof (audit_resolved
                (fun _ => Agent.Resolved
                            {| Agent.success := true;
                               Agent.response :=
                                 VObject [ (lit "result", Sample.unhackableAudit) ];
                               Agent.error := None |})
                Sample.auditedBefore _ Hq eq_refl eq_refl) as (_ & H & _).
  exact (proj1 (H eq_refl)).
Defined.

(** ** [AuditorView]: what is on screen *)

(** X5. Whatever its state, the auditor never shows two of the spinner, the
    analysis and the invitation to paste a draft at once: their guards
    exclude each other. When nothing is stored, neither the score header
    nor the analysis is rendered, and exactly one of the spinner and the
    invitation is shown. *)
Theorem auditor_panels (st : AuditorView.state) :
  AuditorRender.showSpinner st && AuditorRender.showResults st = false
  /\ AuditorRender.showSpinner st && AuditorRender.showPlaceholder st = false
  /\ AuditorRender.showResults st && AuditorRender.showPlaceholder st = false
  /\ (Value.truthy (AuditorView.response st) = false ->
      AuditorRender.showHeader st = false
      /\ AuditorRender.showResults st = false
      /\ AuditorRender.showSpinner st = AuditorView.loading st
      /\ AuditorRender.showPlaceholder st = negb (AuditorView.loading st)).
Proof.
  unfold AuditorRender.showSpinner, AuditorRender.showResults,
    AuditorRender.showPlaceholder, AuditorRender.showHeader.
  destruct (AuditorView.loading st), (Value.truthy (AuditorView.response st));
    simpl; repeat split; discriminate.
Qed.

Lemma auditor_panels_witness :
  AuditorRender.showSpinner AuditorView.initial = false
  /\ AuditorRender.showPlaceholder AuditorView.initial = true.
Proof.
  destruct (auditor_panels AuditorView.initial) as (_ & _ & _ & H).
  destruct (H eq_refl) as (_ & _ & Hs & Hp).
  split; [exact Hs | exact Hp].
Defined.

Lemma settle_audit_loading (o : Agent.settled) (st : AuditorView.state) :
  AuditorView.loading (fst (AuditorView.settle o st)) = false.
Proof.
  unfold AuditorView.settle.
  destruct o as [r | e]; [destruct (Agent.ok r)|]; reflexivity.
Qed.

Lemma auditor_step_wellFormed (s : AuditorUI.session) (e : AuditorUI.event) :
  AuditorUI.wellFormed s -> AuditorUI.wellFormed (AuditorUI.step s e).
Proof.
  unfold AuditorUI.wellFormed. intros (Hp & Hr).
  destruct e as [d | | o]; simpl.
  - destruct (AuditorView.loading (AuditorUI.view s)) eqn:El; simpl.
    + rewrite El. split; [exact Hp | exact Hr].
    + rewrite El. split; [exact Hp | discriminate].
  - unfold AuditorView.clickAudit, AuditorView.auditDisabled, AuditorView.handleAudit.
    destruct (AuditorView.loading (AuditorUI.view s)) eqn:El; simpl.
    + rewrite El. split; [exact Hp | exact Hr].
    + destruct (negb (JsString.truthy
                        (JsString.trim (AuditorView.draft (AuditorUI.view s)))));
        simpl.
      * rewrite El. split; [exact Hp | discriminate].
      * rewrite Hp. split; reflexivity.
  - destruct (AuditorView.loading (AuditorUI.view s)) eqn:El; rewrite Hp.
    + cbn [AuditorUI.view AuditorUI.pending].
      rewrite settle_audit_loading. split; [reflexivity | discriminate].
    + rewrite El. split; [exact Hp | discriminate].
Qed.

Lemma auditor_play_wellFormed (events : list AuditorUI.event) :
  AuditorUI.wellFormed (AuditorUI.play events).
Proof.
  unfold AuditorUI.play.
  assert (H : AuditorUI.wellFormed AuditorUI.start)
    by (split; [reflexivity | discriminate]).
  revert H. generalize AuditorUI.start.
  induction events as [|e events IH]; intros s H; simpl.
  - exact H.
  - apply IH, auditor_step_wellFormed, H.
Qed.

(** X6. Driven through its controls, the auditor never has more than one
    request outstanding, has one exactly while it shows the spinner, and
    never shows the score header of an earlier audit together with the
    spinner. *)
Theorem auditor_controls (events : list AuditorUI.event) :
  (List.length (AuditorUI.pending (AuditorUI.play events)) <= 1)%nat
  /\ (AuditorUI.pending (AuditorUI.play events) <> []
      <-> AuditorRender.showSpinner (AuditorUI.view (AuditorUI.play events)) = true)
  /\ (AuditorRender.showSpinner (AuditorUI.view (AuditorUI.play events)) = true ->
      AuditorRender.showHeader (AuditorUI.view (AuditorUI.play events)) = false).
Proof.
  destruct (auditor_play_wellFormed events) as (Hp & Hr).
  unfold AuditorRender.showSpinner, AuditorRender.showHeader.
  rewrite Hp.
  destruct (AuditorView.loading (AuditorUI.view (AuditorUI.play events))).
  - split; [simpl; auto|]. split; [split; [reflexivity | discriminate]|].
    intros _. rewrite (Hr eq_refl). reflexivity.
  - split; [simpl; auto|]. split; [split; [congruence | discriminate] | discriminate].
Qed.

Lemma auditor_controls_witness :
  let events := [AuditorUI.TypeDraft Sample.unhackableDraft; AuditorUI.ClickAudit;
                 AuditorUI.ClickAudit] in
  AuditorRender.showSpinner (AuditorUI.view (AuditorUI.play events)) = true
  /\ AuditorRender.showHeader (AuditorUI.view (AuditorUI.play events)) = false.
Proof.
  cbv zeta. split; [reflexivity|].
  apply (auditor_controls
           [AuditorUI.TypeDraft Sample.unhackableDraft; AuditorUI.ClickAudit;
            AuditorUI.ClickAudit]).
  reflexivity.
Defined.

(** ** [GeneratorView]: what is on screen *)

Lemma generator_step_quiet (s : GeneratorUI.session) (e : GeneratorUI.event) :
  GeneratorUI.singleFlight s ->
  GeneratorRender.quietInFlight (GeneratorUI.view s) ->
  GeneratorRender.quietInFlight (GeneratorUI.view (GeneratorUI.step s e)).
Proof.
  unfold GeneratorUI.singleFlight, GeneratorRender.quietInFlight. intros Hp Hr.
  destruct e as [q | | | o]; simpl.
  - destruct (GeneratorView.loading (GeneratorUI.view s)) eqn:El; simpl.
    + rewrite El. exact Hr.
    + rewrite El. discriminate.
  - unfold GeneratorView.clickGenerate, GeneratorView.generateDisabled,
      GeneratorView.handleGenerate.
    destruct (GeneratorView.loading (GeneratorUI.view s)) eqn:El; simpl.
    + rewrite El. exact Hr.
    + destruct (negb (JsString.truthy
                        (JsString.trim (GeneratorView.question (GeneratorUI.view s)))));
        simpl.
      * rewrite El. discriminate.
      * reflexivity.
  - destruct (Value.truthy (GeneratorView.response (GeneratorUI.view s))); simpl.
    + reflexivity.
    + exact Hr.
  - destruct (GeneratorView.loading (GeneratorUI.view s)) eqn:El; rewrite Hp.
    + cbn [GeneratorUI.view GeneratorUI.pending].
      destruct (settle_generate_frame o (GeneratorUI.view s)) as (-> & _).
      discriminate.
    + rewrite El. discriminate.
Qed.

Lemma generator_play_quiet (events : list GeneratorUI.event) :
  GeneratorUI.singleFlight (GeneratorUI.play events)
  /\ GeneratorRender.quietInFlight (GeneratorUI.view (GeneratorUI.play events)).
Proof.
  unfold GeneratorUI.play.
  assert (H : GeneratorUI.singleFlight GeneratorUI.start
              /\ GeneratorRender.quietInFlight (GeneratorUI.view GeneratorUI.start))
    by (split; [reflexivity | discriminate]).
  revert H. generalize GeneratorUI.start.
  induction events as [|e events IH]; intros s (Hp & Hr); simpl.
  - split; assumption.
  - apply IH. split.
    + apply step_singleFlight, Hp.
    + apply generator_step_quiet; assumption.
Qed.

(** X7. Driven through its controls, the generator never shows two of the
    invitation to ask, the spinner and the result block at once. The
    result block is not guarded by the loading flag, but the spinner never
    meets it: whenever a request is in flight, nothing is stored. *)
Theorem generator_panels (events : list GeneratorUI.event) :
  (GeneratorView.loading (GeneratorUI.view (GeneratorUI.play events)) = true ->
   GeneratorView.response (GeneratorUI.view (GeneratorUI.play events)) = VNull)
  /\ GeneratorRender.showSpinner (GeneratorUI.view (GeneratorUI.play events))
     && GeneratorRender.showResult (GeneratorUI.view (GeneratorUI.play events)) = false
  /\ GeneratorRender.showSpinner (GeneratorUI.view (GeneratorUI.play events))
     && GeneratorRender.showPlaceholder (GeneratorUI.view (GeneratorUI.play events)) = false
  /\ GeneratorRender.showResult (GeneratorUI.view (GeneratorUI.play events))
     && GeneratorRender.showPlaceholder (GeneratorUI.view (GeneratorUI.play events)) = false.
Proof.
  destruct (generator_play_quiet events) as (_ & Hr).
  unfold GeneratorRender.quietInFlight in Hr.
  split; [exact Hr|].
  unfold GeneratorRender.showPlaceholder, GeneratorRender.showSpinner,
    GeneratorRender.showResult.
  destruct (GeneratorView.loading (GeneratorUI.view (GeneratorUI.play events))).
  - rewrite (Hr eq_refl). repeat split.
  - destruct (Value.truthy _); repeat split.
Qed.

Lemma generator_panels_witness :
  GeneratorView.response
    (GeneratorUI.view
       (GeneratorUI.play [GeneratorUI.TypeQuestion Sample.encryptionQuestion;
                          GeneratorUI.ClickGenerate])) = VNull.
Proof.
  apply (generator_panels [GeneratorUI.TypeQuestion Sample.encryptionQuestion;
                           GeneratorUI.ClickGenerate]).
  reflexivity.
Defined.

(** ** [GeneratorView]: what a failure looks like *)

Lemma render_missingInfo (st : GeneratorView.state) (w : jsstring) :
  GeneratorView.response st = GeneratorView.missingInfo w ->
  GeneratorRender.showResult st = true
  /\ GeneratorRender.showBanner st = JsString.truthy w
  /\ GeneratorRender.showAnswer st = false
  /\ GeneratorRender.copyDisabled st = true.
Proof.
  unfold GeneratorRender.showBanner, GeneratorRender.showAnswer,
    GeneratorRender.copyDisabled, GeneratorRender.showResult.
  intros ->. repeat split; reflexivity.
Qed.

(** X8. After a generation submit whose transport call fails, the result block
    is on screen without an answer and with the copy button disabled. The
    warning banner is shown, except when an [Error] with an empty message
    was thrown: then the block holds the two buttons and nothing else. *)
Theorem generation_failure_on_screen
        (collaborator : Agent.call -> Agent.settled) (st : GeneratorView.state) :
  JsString.trim (GeneratorView.question st) <> [] ->
  Spec.transportFailed (collaborator (generateCall st)) = true ->
  GeneratorRender.showSpinner
    (fst (run collaborator (GeneratorView.handleGenerate st))) = false
  /\ GeneratorRender.showResult
       (fst (run collaborator (GeneratorView.handleGenerate st))) = true
  /\ GeneratorRender.showAnswer
       (fst (run collaborator (GeneratorView.handleGenerate st))) = false
  /\ GeneratorRender.copyDisabled
       (fst (run collaborator (GeneratorView.handleGenerate st))) = true
  /\ GeneratorRender.showBanner
       (fst (run collaborator (GeneratorView.handleGenerate st)))
     = match collaborator (generateCall st) with
       | Agent.Rejected (Agent.Error message) => JsString.truthy message
       | _ => true
       end.
Proof.
  intros Hq Hfail.
  rewrite (run_handleGenerate collaborator _ Hq).
  split; [apply settle_generate_frame|].
  destruct (collaborator (generateCall st)) as [r | [m | v]]; simpl in Hfail.
  - apply negb_true_iff in Hfail.
    pose proof (settle_generate_not_ok r
                  (GeneratorView.setResponse VNull (GeneratorView.setLoading true st))
                  (ok_failed r Hfail)) as H.
    destruct (render_missingInfo _ _ H) as (H1 & H2 & H3 & H4).
    repeat split; try assumption.
    rewrite H2.
    pose proof (errorOr_nonempty r (lit "Failed to generate answer")) as Hne.
    destruct (Agent.errorOr r (lit "Failed to generate answer")).
    + exfalso. apply Hne; [vm_compute; discriminate | reflexivity].
    + reflexivity.
  - repeat split.
  - repeat split.
Qed.

Lemma generation_failure_on_screen_witness :
  GeneratorRender.showBanner
    (fst (run (fun _ => Agent.Resolved Sample.unreachable)
              (GeneratorView.handleGenerate Sample.askingGenerator))) = true.
Proof.
  assert (Hq : JsString.trim (GeneratorView.question Sample.askingGenerator) <> [])
    by (vm_compute; discriminate).
  pose proof (generation_failure_on_screen
                (fun _ => Agent.Resolved Sample.unreachable)
                Sample.askingGenerator Hq eq_refl) as (_ & _ & _ & _ & H).
  exact H.
Defined.

Lemma typed_truthy (v : value) :
  Interfaces.isBidGeneratorResult v = true -> Value.truthy v = true.
Proof. destruct v; simpl; congruence. Qed.

(** What [handleGenerate] stores after a settlement that conforms to the
    interface conforms to it: the result of the payload, or the fallback. *)
Lemma settle_generate_typed (o : Agent.settled) (st : GeneratorView.state) :
  Interfaces.typedOutcome o = true ->
  Interfaces.isBidGeneratorResult
    (GeneratorView.response (fst (GeneratorView.settle o st))) = true.
Proof.
  unfold Interfaces.typedOutcome, GeneratorView.settle.
  destruct o as [r | [m | v]].
  - destruct (Agent.ok r); intros H; [exact H | reflexivity].
  - reflexivity.
  - reflexivity.
Qed.

(** X9. After a generation submit that failed, or that succeeded with a
    result conforming to the interface, what is stored conforms to the
    interface, the question is left as typed and the submit button is
    enabled again: a click sends the same request once more. *)
Theorem generation_resubmit
        (collaborator : Agent.call -> Agent.settled) (st : GeneratorView.state) :
  JsString.trim (GeneratorView.question st) <> [] ->
  Interfaces.typedOutcome (collaborator (generateCall st)) = true ->
  Interfaces.isBidGeneratorResult
    (GeneratorView.response (fst (run collaborator (GeneratorView.handleGenerate st))))
  = true
  /\ GeneratorView.question (fst (run collaborator (GeneratorView.handleGenerate st)))
     = GeneratorView.question st
  /\ GeneratorView.generateDisabled
       (fst (run collaborator (GeneratorView.handleGenerate st))) = false
  /\ requests (GeneratorView.clickGenerate
                 (fst (run collaborator (GeneratorView.handleGenerate st))))
     = [generateCall st].
Proof.
  intros Hq Ht. rewrite (run_handleGenerate collaborator _ Hq).
  split; [apply settle_generate_typed, Ht|].
  destruct (settle_generate_frame (collaborator (generateCall st))
              (GeneratorView.setResponse VNull (GeneratorView.setLoading true st)))
    as (Hl & Hk & _).
  cbn [GeneratorView.question GeneratorView.setResponse GeneratorView.setLoading] in Hk.
  assert (Hd : GeneratorView.generateDisabled
                 (fst (GeneratorView.settle (collaborator (generateCall st))
                         (GeneratorView.setResponse VNull
                            (GeneratorView.setLoading true st)))) = false).
  { unfold GeneratorView.generateDisabled. rewrite Hl, Hk, (truthy_trim _ Hq).
    reflexivity. }
  split; [exact Hk|]. split; [exact Hd|].
  unfold GeneratorView.clickGenerate. rewrite Hd.
  assert (Hq' : JsString.trim
                  (GeneratorView.question
                     (fst (GeneratorView.settle (collaborator (generateCall st))
                             (GeneratorView.setResponse VNull
                                (GeneratorView.setLoading true st))))) <> [])
    by (rewrite Hk; exact Hq).
  rewrite (handleGenerate_submits _ Hq').
  cbn [requests]. unfold generateCall in *. rewrite Hk. reflexivity.
Qed.

Lemma generation_resubmit_witness :
  requests (GeneratorView.clickGenerate
              (fst (run (fun _ => Agent.Rejected (Agent.NotError VNull))
                        (GeneratorView.handleGenerate Sample.askingGenerator))))
  = [generateCall Sample.askingGenerator].
Proof.
  assert (Hq : JsString.trim (GeneratorView.question Sample.askingGenerator) <> [])
    by (vm_compute; discriminate).
  pose proof (generation_resubmit
                (fun _ => Agent.Rejected (Agent.NotError VNull))
                Sample.askingGenerator Hq eq_refl) as (_ & _ & _ & H).
  exact H.
Defined.

(** ** [GeneratorView]: the copy button *)

Lemma copy_guard (st : GeneratorView.state) :
  GeneratorRender.showResult st && negb (GeneratorRender.copyDisabled st)
  = Value.truthy (GeneratorRender.optionalGet (GeneratorView.response st) (lit "answer")).
Proof.
  unfold GeneratorRender.showResult, GeneratorRender.copyDisabled,
    GeneratorRender.optionalGet.
  rewrite negb_involutive.
  destruct (GeneratorView.response st) as [| |b|n|s|items|fields]; simpl;
    try reflexivity.
  - apply andb_false_r.
  - apply andb_false_r.
  - apply andb_false_r.
Qed.

(** X10. The guard inside [handleCopy] and the state of the copy button agree:
    a click does what a direct call does. The clipboard is asked only when
    the stored result has a truthy answer, and it is given that answer; in
    every other state [handleCopy] does nothing at all. *)
Theorem copy_guarded (st : GeneratorView.state) :
  GeneratorRender.clickCopy st = GeneratorRender.handleCopy st
  /\ (Value.truthy (Value.get (GeneratorView.response st) (lit "answer")) = true ->
      requests (GeneratorRender.handleCopy st)
      = [Value.get (GeneratorView.response st) (lit "answer")])
  /\ (Value.truthy (Value.get (GeneratorView.response st) (lit "answer")) = false ->
      GeneratorRender.handleCopy st = Finished st []).
Proof.
  assert (Hopt : Value.truthy (GeneratorRender.optionalGet
                                 (GeneratorView.response st) (lit "answer"))
                 = Value.truthy (Value.get (GeneratorView.response st) (lit "answer")))
    by (destruct (GeneratorView.response st); reflexivity).
  split; [|split].
  - unfold GeneratorRender.clickCopy. rewrite copy_guard.
    unfold GeneratorRender.handleCopy.
    destruct (Value.truthy (GeneratorRender.optionalGet _ _)); reflexivity.
  - intros H. unfold GeneratorRender.handleCopy. rewrite Hopt, H. reflexivity.
  - intros H. unfold GeneratorRender.handleCopy. rewrite Hopt, H. reflexivity.
Qed.

Lemma copy_guarded_witness :
  GeneratorRender.handleCopy Sample.askingGenerator = Finished Sample.askingGenerator [].
Proof.
  exact (proj2 (proj2 (copy_guarded Sample.askingGenerator)) eq_refl).
Defined.

(** X11. [handleCopy] never touches the question, the loading flag or the
    stored result. When the clipboard refuses, nothing changes and no
    timer is set. When it accepts, the acknowledgment is on and one timer
    of two seconds is set, whose callback turns the acknowledgment off and
    touches nothing else; that is the state before the click exactly when
    the acknowledgment was off before it. *)
Theorem copy_acknowledged (clipboard : value -> GeneratorRender.copied)
        (st : GeneratorView.state) :
  GeneratorView.question (fst (run clipboard (GeneratorRender.handleCopy st)))
  = GeneratorView.question st
  /\ GeneratorView.loading (fst (run clipboard (GeneratorRender.handleCopy st)))
     = GeneratorView.loading st
  /\ GeneratorView.response (fst (run clipboard (GeneratorRender.handleCopy st)))
     = GeneratorView.response st
  /\ (Value.truthy (Value.get (GeneratorView.response st) (lit "answer")) = true ->
      clipboard (Value.get (GeneratorView.response st) (lit "answer")) = false ->
      run clipboard (GeneratorRender.handleCopy st) = (st, []))
  /\ (Value.truthy (Value.get (GeneratorView.response st) (lit "answer")) = true ->
      clipboard (Value.get (GeneratorView.response st) (lit "answer")) = true ->
      GeneratorView.copied (fst (run clipboard (GeneratorRender.handleCopy st))) = true
      /\ exists callback,
           snd (run clipboard (GeneratorRender.handleCopy st))
           = [SetTimeout callback 2000]
           /\ (forall later,
                 GeneratorView.copied (callback later) = false
                 /\ GeneratorView.question (callback later) = GeneratorView.question later
                 /\ GeneratorView.loading (callback later) = GeneratorView.loading later
                 /\ GeneratorView.response (callback later)
                    = GeneratorView.response later)
           /\ (callback (fst (run clipboard (GeneratorRender.handleCopy st))) = st
               <-> GeneratorView.copied st = false)).
Proof.
  assert (Hopt : Value.truthy (GeneratorRender.optionalGet
                                 (GeneratorView.response st) (lit "answer"))
                 = Value.truthy (Value.get (GeneratorView.response st) (lit "answer")))
    by (destruct (GeneratorView.response st); reflexivity).
  unfold GeneratorRender.handleCopy. rewrite Hopt.
  destruct (Value.truthy (Value.get (GeneratorView.response st) (lit "answer")));
    cbn [run fst snd]; unfold GeneratorRender.acknowledge.
  - destruct (clipboard (Value.get (GeneratorView.response st) (lit "answer")));
      cbn [fst snd].
    + repeat split; try discriminate.
      exists (GeneratorRender.setCopied false).
      split; [reflexivity|]. split; [intros later; repeat split|].
      destruct st as [q l r c]; cbn. split.
      * intros Heq. injection Heq as Heq. symmetry. exact Heq.
      * intros ->. reflexivity.
    + repeat split; discriminate.
  - repeat split; discriminate.
Qed.

Lemma copy_acknowledged_witness :
  GeneratorView.copied
    (fst (run (fun _ => true)
              (GeneratorRender.handleCopy
                 (GeneratorView.setResponse
                    (VObject [ (lit "answer", VString (lit "AES-256 at rest.")) ])
                    Sample.askingGenerator)))) = true.
Proof.
  destruct (copy_acknowledged (fun _ => true)
              (GeneratorView.setResponse
                 (VObject [ (lit "answer", VString (lit "AES-256 at rest.")) ])
                 Sample.askingGenerator)) as (_ & _ & _ & _ & H).
  exact (proj1 (H eq_refl eq_refl)).
Defined.

(** ** [VaultView] *)

Lemma startsWith_iff (s sub : jsstring) :
  StringSearch.startsWith s sub = true <-> exists rest, s = sub ++ rest.
Proof.
  revert s. induction sub as [|x sub IH]; intros s.
  - split; [intros _; exists s; reflexivity | intros _; destruct s; reflexivity].
  - destruct s as [|y s]; simpl.
    + split; [discriminate | intros (rest & H); discriminate].
    + rewrite andb_true_iff, IH. split.
      * intros (Hxy & rest & ->). apply N.eqb_eq in Hxy. subst y.
        exists rest. reflexivity.
      * intros (rest & H). injection H as -> ->.
        split; [apply N.eqb_refl | exists rest; reflexivity].
Qed.

(** [includes] finds exactly the strings that occur as a contiguous part. *)
Lemma includes_iff (s sub : jsstring) :
  StringSearch.includes s sub = true <-> exists before rest, s = before ++ sub ++ rest.
Proof.
  induction s as [|c s IH].
  - change (StringSearch.includes [] sub)
      with (StringSearch.startsWith [] sub || false).
    rewrite orb_false_r, startsWith_iff. split.
    + intros (rest & H). exists [], rest. exact H.
    + intros (before & rest & H). destruct before as [|b before]; [|discriminate].
      exists rest. exact H.
  - change (StringSearch.includes (c :: s) sub)
      with (StringSearch.startsWith (c :: s) sub || StringSearch.includes s sub).
    rewrite orb_true_iff, startsWith_iff, IH. split.
    + intros [(rest & H) | (before & rest & H)].
      * exists [], rest. exact H.
      * exists (c :: before), rest. rewrite H. reflexivity.
    + intros (before & rest & H). destruct before as [|b before].
      * left. exists rest. exact H.
      * right. injection H as _ H. exists before, rest. exact H.
Qed.

(** X12. The alert under the buttons is shown exactly when the message is not
    empty, and it is green exactly when the message contains [success];
    so the message of a completed save is green and the request to enter
    content is yellow. *)
Theorem vault_alert (st : VaultView.state) :
  (VaultControls.showAlert st = true <-> VaultView.saveMessage st <> [])
  /\ (VaultControls.alertClass st = lit "border-green-200 bg-green-50"
      <-> exists before rest,
            VaultView.saveMessage st = before ++ lit "success" ++ rest)
  /\ (VaultView.saveMessage st = VaultControls.successMessage ->
      VaultControls.alertClass st = lit "border-green-200 bg-green-50")
  /\ (VaultView.saveMessage st = lit "Please enter content to save" ->
      VaultControls.alertClass st = lit "border-yellow-200 bg-yellow-50").
Proof.
  split; [|split; [|split]].
  - unfold VaultControls.showAlert.
    destruct (VaultView.saveMessage st); simpl; split; congruence.
  - rewrite <- includes_iff. unfold VaultControls.alertClass.
    destruct (StringSearch.includes _ _); split; try reflexivity.
    + intros H. vm_compute in H. discriminate.
    + discriminate.
  - unfold VaultControls.alertClass. intros ->. reflexivity.
  - unfold VaultControls.alertClass. intros ->. reflexivity.
Qed.

Lemma vault_alert_witness :
  VaultControls.alertClass
    (VaultView.setSaveMessage VaultControls.successMessage VaultView.initial)
  = lit "border-green-200 bg-green-50".
Proof.
  destruct (vault_alert
              (VaultView.setSaveMessage VaultControls.successMessage VaultView.initial))
    as (_ & _ & H & _).
  apply H. reflexivity.
Defined.

Lemma setSaveMessage_nil_id (st : VaultView.state) :
  VaultView.saveMessage st = [] -> VaultView.setSaveMessage [] st = st.
Proof. destruct st as [c s m]; simpl; intros ->; reflexivity. Qed.

(** X13. A save of content that is not blank: while the delay runs the view is
    saving and shows no message; afterwards the saving flag is off, the
    success message is shown, the content is what it was, and one timer of
    five seconds is set, whose callback clears the message. For a view that
    was idle without a message, save and timer together lead back to the
    state before the save. *)
Theorem vault_save_flow (elapse : N -> unit) (st : VaultView.state) :
  JsString.trim (VaultView.vaultContent st) <> [] ->
  requests (VaultView.handleSave st) = [1000%N]
  /\ VaultView.saving (suspended (VaultView.handleSave st)) = true
  /\ VaultView.saveMessage (suspended (VaultView.handleSave st)) = []
  /\ VaultView.saving (fst (run elapse (VaultView.handleSave st))) = false
  /\ VaultView.saveMessage (fst (run elapse (VaultView.handleSave st)))
     = VaultControls.successMessage
  /\ VaultView.vaultContent (fst (run elapse (VaultView.handleSave st)))
     = VaultView.vaultContent st
  /\ exists callback,
       snd (run elapse (VaultView.handleSave st)) = [SetTimeout callback 5000]
       /\ (forall later, VaultView.saveMessage (callback later) = []
                         /\ VaultView.vaultContent (callback later)
                            = VaultView.vaultContent later
                         /\ VaultView.saving (callback later) = VaultView.saving later)
       /\ (VaultView.saving st = false -> VaultView.saveMessage st = [] ->
           callback (fst (run elapse (VaultView.handleSave st))) = st).
Proof.
  intros Hq. unfold VaultView.handleSave. rewrite (truthy_trim _ Hq).
  cbn [requests suspended run]. unfold VaultView.saved.
  repeat split.
  exists (VaultView.setSaveMessage []).
  split; [reflexivity|]. split; [intros later; repeat split|].
  intros Hs Hm. destruct st as [c s m]; simpl in *. subst. reflexivity.
Qed.

Lemma vault_save_flow_witness :
  let loaded := VaultControls.handleLoadSample VaultView.initial in
  VaultView.saveMessage (fst (run (fun _ => tt) (VaultView.handleSave loaded)))
  = VaultControls.successMessage.
Proof.
  cbv zeta.
  assert (Hq : JsString.trim
                 (VaultView.vaultContent
                    (VaultControls.handleLoadSample VaultView.initial)) <> [])
    by (vm_compute; discriminate).
  pose proof (vault_save_flow (fun _ => tt)
                (VaultControls.handleLoadSample VaultView.initial) Hq)
    as (_ & _ & _ & _ & H & _).
  exact H.
Defined.

(** X14. Loading the sample puts the canonical document in the buffer and
    clears the message; the document is not blank, so the save button is
    enabled afterwards unless a save is running; loading it twice is
    loading it once. *)
Theorem load_sample (st : VaultView.state) :
  VaultView.vaultContent (VaultControls.handleLoadSample st)
  = VaultControls.SAMPLE_VAULT_DATA
  /\ VaultControls.showAlert (VaultControls.handleLoadSample st) = false
  /\ VaultView.saveDisabled (VaultControls.handleLoadSample st) = VaultView.saving st
  /\ VaultControls.handleLoadSample (VaultControls.handleLoadSample st)
     = VaultControls.handleLoadSample st.
Proof.
  assert (H : negb (JsString.truthy (JsString.trim VaultControls.SAMPLE_VAULT_DATA)) = false)
    by (vm_compute; reflexivity).
  split; [reflexivity|]. split; [reflexivity|]. split; [|reflexivity].
  change (VaultView.saving st
          || negb (JsString.truthy (JsString.trim VaultControls.SAMPLE_VAULT_DATA))
          = VaultView.saving st).
  rewrite H. apply orb_false_r.
Qed.

Lemma vault_step_wellFormed (s : VaultControls.session) (e : VaultControls.event) :
  VaultControls.wellFormed s -> VaultControls.wellFormed (VaultControls.step s e).
Proof.
  unfold VaultControls.wellFormed. intros (Hp & Ht & Hm).
  destruct e; simpl.
  - destruct (VaultView.saving (VaultControls.view s)) eqn:Es; simpl.
    + rewrite Es. repeat split; assumption.
    + rewrite Es. repeat split; assumption.
  - unfold VaultView.saveDisabled, VaultView.handleSave.
    destruct (VaultView.saving (VaultControls.view s)) eqn:Es; simpl.
    + rewrite Es. repeat split; assumption.
    + destruct (negb (JsString.truthy
                        (JsString.trim (VaultView.vaultContent (VaultControls.view s)))));
        simpl.
      * rewrite Es. repeat split; assumption.
      * rewrite Hp. repeat split; [assumption | left; reflexivity].
  - destruct (VaultView.saving (VaultControls.view s)) eqn:Es; simpl.
    + rewrite Es. repeat split; assumption.
    + rewrite Es. repeat split; [assumption.. | left; reflexivity].
  - destruct (VaultView.saving (VaultControls.view s)) eqn:Es; rewrite Hp.
    + cbn. repeat split.
      * apply Forall_app. split; [exact Ht|]. constructor; [reflexivity | constructor].
      * right. reflexivity.
    + rewrite Es. repeat split; assumption.
  - destruct (VaultControls.timers s) as [|callback rest] eqn:Et.
    + rewrite Et. repeat split; [assumption | constructor | assumption].
    + inversion Ht as [|? ? Hc Hrest]; subst. cbn.
      repeat split; [exact Hp | exact Hrest | left; reflexivity].
Qed.

Lemma vault_play_wellFormed (events : list VaultControls.event) :
  VaultControls.wellFormed (VaultControls.play events).
Proof.
  unfold VaultControls.play.
  assert (H : VaultControls.wellFormed VaultControls.start)
    by (repeat split; [constructor | left; reflexivity]).
  revert H. generalize VaultControls.start.
  induction events as [|e events IH]; intros s H; simpl.
  - exact H.
  - apply IH, vault_step_wellFormed, H.
Qed.

(** X15. Driven through its controls, the vault never has more than one save
    running, and the only message it ever shows is the success message, in
    green: the save button is disabled on blank content, so the request to
    enter content is never displayed. *)
Theorem vault_controls (events : list VaultControls.event) :
  (List.length (VaultControls.pending (VaultControls.play events)) <= 1)%nat
  /\ (VaultControls.showAlert (VaultControls.view (VaultControls.play events)) = true ->
      VaultView.saveMessage (VaultControls.view (VaultControls.play events))
      = VaultControls.successMessage
      /\ VaultControls.alertClass (VaultControls.view (VaultControls.play events))
         = lit "border-green-200 bg-green-50")
  /\ VaultView.saveMessage (VaultControls.view (VaultControls.play events))
     <> lit "Please enter content to save".
Proof.
  destruct (vault_play_wellFormed events) as (Hp & _ & Hm).
  split; [|split].
  - rewrite Hp. destruct (VaultView.saving _); simpl; auto.
  - unfold VaultControls.showAlert, VaultControls.alertClass.
    destruct Hm as [-> | ->]; [discriminate|].
    intros _. split; reflexivity.
  - destruct Hm as [-> | ->]; intros H; vm_compute in H; discriminate.
Qed.

Lemma vault_controls_witness :
  let events := [VaultControls.ClickLoadSample; VaultControls.ClickSave;
                 VaultControls.Elapse] in
  VaultView.saveMessage (VaultControls.view (VaultControls.play events))
  = VaultControls.successMessage.
Proof.
  cbv zeta.
  apply (vault_controls [VaultControls.ClickLoadSample; VaultControls.ClickSave;
                         VaultControls.Elapse]).
  vm_compute. reflexivity.
Defined.

(** ** Back to the state before a submit *)

(** X16. After a generation submit from an idle view without a result,
    when the submit failed or succeeded with a result conforming to the
    interface, the result block with its Clear button is on screen, and
    Clear leaves the generator exactly as it was before the submit. *)
Theorem generation_clear_round_trip
        (collaborator : Agent.call -> Agent.settled) (st : GeneratorView.state) :
  GeneratorView.loading st = false ->
  GeneratorView.response st = VNull ->
  JsString.trim (GeneratorView.question st) <> [] ->
  Interfaces.typedOutcome (collaborator (generateCall st)) = true ->
  GeneratorRender.showResult
    (fst (run collaborator (GeneratorView.handleGenerate st))) = true
  /\ GeneratorView.clickClear (fst (run collaborator (GeneratorView.handleGenerate st)))
     = st.
Proof.
  intros Hl Hr Hq Ht. rewrite (run_handleGenerate collaborator _ Hq). split.
  - unfold GeneratorRender.showResult.
    apply typed_truthy, settle_generate_typed, Ht.
  - unfold GeneratorView.settle.
    destruct st as [q l r c]; simpl in *. subst.
    destruct (collaborator _) as [res | [m | v]]; [destruct (Agent.ok res)| |];
      reflexivity.
Qed.

Lemma generation_clear_round_trip_witness :
  GeneratorView.clickClear
    (fst (run (fun _ => Agent.Resolved Sample.unreachable)
              (GeneratorView.handleGenerate Sample.askingGenerator)))
  = Sample.askingGenerator.
Proof.
  assert (Hq : JsString.trim (GeneratorView.question Sample.askingGenerator) <> [])
    by (vm_compute; discriminate).
  exact (proj2 (generation_clear_round_trip
                  (fun _ => Agent.Resolved Sample.unreachable)
                  Sample.askingGenerator eq_refl eq_refl Hq eq_refl)).
Defined.

(** X17. A failed audit leaves no trace in the view: an idle auditor without a
    result is, after the failure, in exactly the state it was in before the
    submit. *)
Theorem audit_failure_no_trace
        (collaborator : Agent.call -> Agent.settled) (st : AuditorView.state) :
  AuditorView.loading st = false ->
  AuditorView.response st = VNull ->
  Spec.transportFailed (collaborator (auditCall st)) = true ->
  fst (run collaborator (AuditorView.handleAudit st)) = st.
Proof.
  intros Hl Hr Hfail. unfold auditCall in Hfail. unfold AuditorView.handleAudit.
  destruct (negb (JsString.truthy (JsString.trim (AuditorView.draft st)))).
  - reflexivity.
  - cbn [run]. unfold AuditorView.settle.
    destruct (collaborator _) as [res | e]; simpl in Hfail.
    + apply negb_true_iff in Hfail. rewrite (ok_failed res Hfail).
      destruct st as [d l r]; simpl in *. subst. reflexivity.
    + destruct st as [d l r]; simpl in *. subst. reflexivity.
Qed.

Lemma audit_failure_no_trace_witness :
  let idle := AuditorView.setDraft Sample.unhackableDraft AuditorView.initial in
  fst (run (fun _ => Agent.Resolved Sample.unreachable) (AuditorView.handleAudit idle))
  = idle.
Proof.
  exact (audit_failure_no_trace
           (fun _ => Agent.Resolved Sample.unreachable)
           (AuditorView.setDraft Sample.unhackableDraft AuditorView.initial)
           eq_refl eq_refl eq_refl).
Defined.

Lemma buttons_enabled_witness :
  GeneratorView.generateDisabled Sample.askingGenerator = false
  /\ VaultView.saveDisabled Sample.emptyVault = true.
Proof.
  destruct buttons_enabled as (Hgenerate & _ & Hsave). split.
  - apply Hgenerate. split; reflexivity.
  - destruct (VaultView.saveDisabled Sample.emptyVault) eqn:E; [reflexivity|].
    apply Hsave in E. destruct E as (_ & E). vm_compute in E. discriminate.
Defined.
